(** * A shallow embedding of task1_2.py: the iostat and /proc/meminfo samplers

    The program polls two textual sources, parses them and writes the numbers
    into Prometheus gauges.  This development models

    - the Python string primitives the two parsers use ([str.splitlines],
      [str.split], [str.strip], [in], [str.lower], [re.search] with [\d+],
      [re.sub] with a negated character class, [int]);
    - the gauges as finite maps from label (or metric name) to value, with
      what the client library does on the way: [labels] creates a child at
      0.0, [set] stores [float(value)];
    - the bodies of [collect_iostat_metrics] and [collect_meminfo_metrics]
      as computations in a state-and-exception monad, and the two functions
      themselves as the [try ... except Exception] around those bodies.

    Characters are the code points 0..255 (type [ascii]); a Python [str] is
    a [string].  Logging has no effect on the registry and is left out. *)

From Stdlib Require Import ZArith NArith Ascii String List Bool Lia.
From Stdlib Require Floats.
Import (notations) Floats.PrimFloat.
From stdpp Require Import base option list strings gmap fin_maps.

Local Open Scope Z_scope.

(** ** Python string primitives *)

Module Py.

(** [str.isspace] on one code point below 256: TAB..CR, FS..US, space,
    NEL (0x85) and NBSP (0xA0). *)
Definition isspace (c : ascii) : bool :=
  let n := N_of_ascii c in
  ((9 <=? n) && (n <=? 13) || (28 <=? n) && (n <=? 32)
   || (n =? 133) || (n =? 160))%N.

(** The class [\d] (and [0-9]) below code point 256. *)
Definition isdigit (c : ascii) : bool :=
  let n := N_of_ascii c in ((48 <=? n) && (n <=? 57))%N.

(** The line boundaries of [str.splitlines] below code point 256:
    LF, VT, FF, CR, FS, GS, RS and NEL. *)
Definition islinebreak (c : ascii) : bool :=
  let n := N_of_ascii c in
  ((10 <=? n) && (n <=? 13) || (28 <=? n) && (n <=? 30) || (n =? 133))%N.

(** [str.lower] on one code point below 256: A-Z, and the Latin-1 capitals
    0xC0..0xDE except the multiplication sign 0xD7, move up by 32. *)
Definition lower_char (c : ascii) : ascii :=
  let n := N_of_ascii c in
  if ((65 <=? n) && (n <=? 90)
      || (192 <=? n) && (n <=? 222) && negb (n =? 215))%N
  then ascii_of_N (n + 32) else c.

Fixpoint lower (s : string) : string :=
  match s with
  | EmptyString => EmptyString
  | String c s' => String (lower_char c) (lower s')
  end.

(** [sub in s] *)
Fixpoint contains (sub s : string) : bool :=
  String.prefix sub s
  || match s with
     | EmptyString => false
     | String _ s' => contains sub s'
     end.

(** [s.splitlines()]: the boundaries are dropped, CR LF counts once, and a
    final boundary opens no further line. *)
Fixpoint splitlines (s : string) : list string :=
  match s with
  | EmptyString => []
  | String c s' =>
      if islinebreak c then
        EmptyString ::
          match s' with
          | String d s'' =>
              if (N_of_ascii c =? 13)%N && (N_of_ascii d =? 10)%N
              then splitlines s'' else splitlines s'
          | EmptyString => []
          end
      else
        match splitlines s' with
        | [] => [String c EmptyString]
        | l :: ls => String c l :: ls
        end
  end.

Definition starts_nonspace (s : string) : bool :=
  match s with
  | EmptyString => false
  | String c _ => negb (isspace c)
  end.

(** [s.split()] with no separator: the maximal runs of non-whitespace. *)
Fixpoint split (s : string) : list string :=
  match s with
  | EmptyString => []
  | String c s' =>
      if isspace c then split s'
      else if starts_nonspace s' then
        match split s' with
        | w :: ws => String c w :: ws
        | [] => [String c EmptyString]
        end
      else String c EmptyString :: split s'
  end.

Fixpoint lstrip (s : string) : string :=
  match s with
  | EmptyString => EmptyString
  | String c s' => if isspace c then lstrip s' else s
  end.

Fixpoint rstrip (s : string) : string :=
  match s with
  | EmptyString => EmptyString
  | String c s' =>
      match rstrip s' with
      | EmptyString => if isspace c then EmptyString else String c EmptyString
      | r => String c r
      end
  end.

(** [s.strip()] *)
Definition strip (s : string) : string := rstrip (lstrip s).

(** [s.split(sep, 1)] for a one-character separator: one or two pieces. *)
Fixpoint split1 (sep : ascii) (s : string) : list string :=
  match s with
  | EmptyString => [EmptyString]
  | String c s' =>
      if Ascii.eqb c sep then [EmptyString; s']
      else match split1 sep s' with
           | a :: rest => String c a :: rest
           | [] => [String c EmptyString]
           end
  end.

Fixpoint take_digits (s : string) : string :=
  match s with
  | EmptyString => EmptyString
  | String c s' => if isdigit c then String c (take_digits s') else EmptyString
  end.

(** [re.search(r'(\d+)', s)]: group 1 of the leftmost match, which is the
    longest run of digits starting at the first digit; [None] for no match. *)
Fixpoint search_digits (s : string) : option string :=
  match s with
  | EmptyString => None
  | String c s' => if isdigit c then Some (take_digits s) else search_digits s'
  end.

Definition digit_value (c : ascii) : Z := Z.of_N (N_of_ascii c) - 48.

Fixpoint int_go (acc : Z) (s : string) : option Z :=
  match s with
  | EmptyString => Some acc
  | String c s' =>
      if isdigit c then int_go (10 * acc + digit_value c) s' else None
  end.

(** [int(s)] on an unsigned decimal literal, the only form [\d+] produces;
    [None] stands for ValueError. *)
Definition int (s : string) : option Z :=
  match s with
  | EmptyString => None
  | _ => int_go 0 s
  end.

(** [int(s)] under [sys.int_max_str_digits]: a literal with more digits
    than a positive limit raises ValueError; no limit ([None], or 0) is the
    behaviour of interpreters without the check. *)
Definition exceeds (max_str_digits : option nat) (s : string) : bool :=
  match max_str_digits with
  | Some m => (0 <? m)%nat && (m <? String.length s)%nat
  | None => false
  end.

Definition int_limit (max_str_digits : option nat) (s : string) : option Z :=
  if exceeds max_str_digits s then None else int s.

(** The class [[a-zA-Z0-9_]] of the pattern in [re.sub]. *)
Definition in_name_class (c : ascii) : bool :=
  let n := N_of_ascii c in
  ((97 <=? n) && (n <=? 122) || (65 <=? n) && (n <=? 90)
   || (48 <=? n) && (n <=? 57) || (n =? 95))%N.

(** [re.sub(r'[^a-zA-Z0-9_]', '_', s)] *)
Fixpoint sub_non_name (s : string) : string :=
  match s with
  | EmptyString => EmptyString
  | String c s' =>
      String (if in_name_class c then c else "_"%char) (sub_non_name s')
  end.

End Py.

(** ** The built-in numbers

    The samplers and the gauges use these things of Python numbers: the
    conversion [float(s)] of a text field, which raises ValueError on text
    that is no number; the product [x * 1024] of a float with an int; the
    conversion [float(n)] of an int, which [Gauge.set] applies to what it
    stores and which raises OverflowError outside the range of a double; the
    float 0.0 a new gauge or child starts at; and the limit on the digits
    of [int(s)].  The development is parametric in the type [F] of floats
    and in these. *)

Class FloatModel (F : Type) := {
  (** [float(s)]; [None] stands for ValueError *)
  float : string -> option F;
  (** [x * n] for a float [x] and an int [n] *)
  mul_int : F -> Z -> F;
  (** [float(n)] for an int [n]; [None] stands for OverflowError *)
  float_of_int : Z -> option F;
  (** [0.0] *)
  float_zero : F;
  (** [sys.int_max_str_digits], [None] where the interpreter has no limit *)
  int_max_str_digits : option nat
}.

(** *** IEEE 754 binary64 as one model

    [float(s)] on the literals Python accepts: surrounding whitespace, a
    sign, then [inf], [infinity], [nan] in any case, or a decimal number
    with optional fraction and exponent, where single underscores may
    group digits.  The decimal value is rounded to nearest-even once. *)

Module Binary64.

Import Floats.SpecFloat Floats.FloatOps.

(** A digit part [digit (["_"] digit)*]: its digits and the text after it.
    [prev] tells whether the character before was a digit. *)
Fixpoint digitpart (prev : bool) (s : string) : string * string :=
  match s with
  | EmptyString => (EmptyString, EmptyString)
  | String c s' =>
      if Py.isdigit c then
        let '(ds, rest) := digitpart true s' in (String c ds, rest)
      else if Ascii.eqb c "_" && prev
                && match s' with String d _ => Py.isdigit d | EmptyString => false end
      then digitpart false s'
      else (EmptyString, s)
  end.

Definition sign (s : string) : bool * string :=
  match s with
  | String "-" s' => (true, s')
  | String "+" s' => (false, s')
  | _ => (false, s)
  end.

Definition digits_value (ds : string) : Z := default 0 (Py.int_go 0 ds).

(** The decimal literal [s] as [(m, e)], standing for [m * 10^e]. *)
Definition decimal (s : string) : option (Z * Z) :=
  let '(ip, r1) := digitpart false s in
  let '(fp, r2) :=
    match r1 with
    | String "." r => digitpart false r
    | _ => (EmptyString, r1)
    end in
  if (String.length ip + String.length fp =? 0)%nat then None else
  let m := digits_value (ip +:+ fp) in
  let scale := - Z.of_nat (String.length fp) in
  match r2 with
  | EmptyString => Some (m, scale)
  | String c r =>
      if Ascii.eqb c "e" || Ascii.eqb c "E" then
        let '(neg, r') := sign r in
        match digitpart false r' with
        | (String d ds, EmptyString) =>
            let x := digits_value (String d ds) in
            Some (m, scale + (if neg then - x else x))
        | _ => None
        end
      else None
  end.

(** [m * 10^e], for [m >= 0], rounded to binary64. *)
Definition round (m e : Z) : spec_float :=
  match m with
  | Zpos p =>
      if 0 <=? e then binary_normalize prec emax (Zpos p * 10 ^ e) 0 false
      else SFdiv prec emax (S754_finite false p 0)
                           (S754_finite false (Z.to_pos (10 ^ (- e))) 0)
  | _ => S754_zero false
  end.

Definition with_sign (neg : bool) (x : spec_float) : spec_float :=
  if neg then SFopp x else x.

Definition of_string (s : string) : option PrimFloat.float :=
  let '(neg, body) := sign (Py.strip s) in
  let word := Py.lower body in
  if String.eqb word "inf" || String.eqb word "infinity" then
    Some (SF2Prim (S754_infinity neg))
  else if String.eqb word "nan" then Some PrimFloat.nan
  else
    match decimal body with
    | Some (m, e) => Some (SF2Prim (with_sign neg (round m e)))
    | None => None
    end.

Definition of_int (n : Z) : PrimFloat.float :=
  SF2Prim (binary_normalize prec emax n 0 false).

(** [float(n)]: the nearest double, OverflowError when that is infinite. *)
Definition of_int_checked (n : Z) : option PrimFloat.float :=
  match binary_normalize prec emax n 0 false with
  | S754_infinity _ => None
  | x => Some (SF2Prim x)
  end.

(** Doubles, with the default digit limit of CPython 3.11 and later. *)
Definition model : FloatModel PrimFloat.float :=
  {| float := of_string;
     mul_int x n := PrimFloat.mul x (of_int n);
     float_of_int := of_int_checked;
     float_zero := PrimFloat.zero;
     int_max_str_digits := Some 4300%nat |}.

End Binary64.

(** ** The metric registry *)

Section Samplers.

Context {F : Type} {FM : FloatModel F}.

(** A gauge without labels, as the memory sampler creates them: its
    documentation string and its current value, a float (0.0 for a gauge
    never set). *)
Record Gauge := { documentation : string; value : F }.

(** The module-level gauges.  A gauge with one label is the map from label
    value to the child's value ([g.labels(l)] creates the child at 0.0 when
    it is absent); [meminfo_gauges] is the dictionary from metric name to
    the gauge registered under that name. *)
Record registry := {
  io_read_rate : gmap string F;
  io_write_rate : gmap string F;
  io_tps : gmap string F;
  io_read_bytes : gmap string F;
  io_write_bytes : gmap string F;
  cpu_avg_percent : gmap string F;
  meminfo_gauges : gmap string Gauge
}.

Definition empty_registry : registry :=
  {| io_read_rate := ∅; io_write_rate := ∅; io_tps := ∅; io_read_bytes := ∅;
     io_write_bytes := ∅; cpu_avg_percent := ∅; meminfo_gauges := ∅ |}.

(** ** Computations that update the registry and may raise *)

Inductive exn :=
| ValueError
| IndexError
| KeyError
| OverflowError
| CalledProcessError
| OSError.

Inductive outcome (A : Type) :=
| Return (a : A)
| Raise (e : exn).
Arguments Return {A} a.
Arguments Raise {A} e.

Definition M (A : Type) : Type := registry -> registry * outcome A.

Definition ret {A} (a : A) : M A := fun r => (r, Return a).

Definition raise {A} (e : exn) : M A := fun r => (r, Raise e).

Definition bind {A B} (c : M A) (k : A -> M B) : M B :=
  fun r =>
    match c r with
    | (r', Return a) => k a r'
    | (r', Raise e) => (r', Raise e)
    end.

#[global] Instance M_ret : MRet M := @ret.
#[global] Instance M_bind : MBind M := fun A B k c => bind c k.

(** [xs[i]] *)
Definition item (xs : list string) (i : nat) : M string :=
  match xs !! i with
  | Some x => ret x
  | None => raise IndexError
  end.

(** [float(s)] *)
Definition to_float (s : string) : M F :=
  match float s with
  | Some x => ret x
  | None => raise ValueError
  end.

(** [int(s)] *)
Definition to_int (s : string) : M Z :=
  match Py.int_limit int_max_str_digits s with
  | Some n => ret n
  | None => raise ValueError
  end.

(** [g.labels(label)] on the children of one gauge: the child is created
    at 0.0 when it is absent. *)
Definition child (label : string) (g : gmap string F) : gmap string F :=
  match g !! label with
  | Some _ => g
  | None => <[label := float_zero]> g
  end.

(** [g.labels(label)] for each of the labelled gauges. *)
Definition labels_io_read_rate (label : string) : M unit := fun r =>
  ({| io_read_rate := child label (io_read_rate r);
      io_write_rate := io_write_rate r; io_tps := io_tps r;
      io_read_bytes := io_read_bytes r; io_write_bytes := io_write_bytes r;
      cpu_avg_percent := cpu_avg_percent r;
      meminfo_gauges := meminfo_gauges r |}, Return tt).

Definition labels_io_write_rate (label : string) : M unit := fun r =>
  ({| io_read_rate := io_read_rate r;
      io_write_rate := child label (io_write_rate r); io_tps := io_tps r;
      io_read_bytes := io_read_bytes r; io_write_bytes := io_write_bytes r;
      cpu_avg_percent := cpu_avg_percent r;
      meminfo_gauges := meminfo_gauges r |}, Return tt).

Definition labels_io_tps (label : string) : M unit := fun r =>
  ({| io_read_rate := io_read_rate r; io_write_rate := io_write_rate r;
      io_tps := child label (io_tps r);
      io_read_bytes := io_read_bytes r; io_write_bytes := io_write_bytes r;
      cpu_avg_percent := cpu_avg_percent r;
      meminfo_gauges := meminfo_gauges r |}, Return tt).

Definition labels_io_read_bytes (label : string) : M unit := fun r =>
  ({| io_read_rate := io_read_rate r; io_write_rate := io_write_rate r;
      io_tps := io_tps r;
      io_read_bytes := child label (io_read_bytes r);
      io_write_bytes := io_write_bytes r;
      cpu_avg_percent := cpu_avg_percent r;
      meminfo_gauges := meminfo_gauges r |}, Return tt).

Definition labels_io_write_bytes (label : string) : M unit := fun r =>
  ({| io_read_rate := io_read_rate r; io_write_rate := io_write_rate r;
      io_tps := io_tps r; io_read_bytes := io_read_bytes r;
      io_write_bytes := child label (io_write_bytes r);
      cpu_avg_percent := cpu_avg_percent r;
      meminfo_gauges := meminfo_gauges r |}, Return tt).

Definition labels_cpu_avg_percent (label : string) : M unit := fun r =>
  ({| io_read_rate := io_read_rate r; io_write_rate := io_write_rate r;
      io_tps := io_tps r; io_read_bytes := io_read_bytes r;
      io_write_bytes := io_write_bytes r;
      cpu_avg_percent := child label (cpu_avg_percent r);
      meminfo_gauges := meminfo_gauges r |}, Return tt).

(** [.set(v)] on the child [label] of each of the labelled gauges, for a
    float [v]. *)
Definition set_io_read_rate (label : string) (v : F) : M unit := fun r =>
  ({| io_read_rate := <[label := v]> (io_read_rate r);
      io_write_rate := io_write_rate r; io_tps := io_tps r;
      io_read_bytes := io_read_bytes r; io_write_bytes := io_write_bytes r;
      cpu_avg_percent := cpu_avg_percent r;
      meminfo_gauges := meminfo_gauges r |}, Return tt).

Definition set_io_write_rate (label : string) (v : F) : M unit := fun r =>
  ({| io_read_rate := io_read_rate r;
      io_write_rate := <[label := v]> (io_write_rate r); io_tps := io_tps r;
      io_read_bytes := io_read_bytes r; io_write_bytes := io_write_bytes r;
      cpu_avg_percent := cpu_avg_percent r;
      meminfo_gauges := meminfo_gauges r |}, Return tt).

Definition set_io_tps (label : string) (v : F) : M unit := fun r =>
  ({| io_read_rate := io_read_rate r; io_write_rate := io_write_rate r;
      io_tps := <[label := v]> (io_tps r);
      io_read_bytes := io_read_bytes r; io_write_bytes := io_write_bytes r;
      cpu_avg_percent := cpu_avg_percent r;
      meminfo_gauges := meminfo_gauges r |}, Return tt).

Definition set_io_read_bytes (label : string) (v : F) : M unit := fun r =>
  ({| io_read_rate := io_read_rate r; io_write_rate := io_write_rate r;
      io_tps := io_tps r;
      io_read_bytes := <[label := v]> (io_read_bytes r);
      io_write_bytes := io_write_bytes r;
      cpu_avg_percent := cpu_avg_percent r;
      meminfo_gauges := meminfo_gauges r |}, Return tt).

Definition set_io_write_bytes (label : string) (v : F) : M unit := fun r =>
  ({| io_read_rate := io_read_rate r; io_write_rate := io_write_rate r;
      io_tps := io_tps r; io_read_bytes := io_read_bytes r;
      io_write_bytes := <[label := v]> (io_write_bytes r);
      cpu_avg_percent := cpu_avg_percent r;
      meminfo_gauges := meminfo_gauges r |}, Return tt).

Definition set_cpu_avg_percent (label : string) (v : F) : M unit := fun r =>
  ({| io_read_rate := io_read_rate r; io_write_rate := io_write_rate r;
      io_tps := io_tps r; io_read_bytes := io_read_bytes r;
      io_write_bytes := io_write_bytes r;
      cpu_avg_percent := <[label := v]> (cpu_avg_percent r);
      meminfo_gauges := meminfo_gauges r |}, Return tt).

Definition with_meminfo_gauges (g : gmap string Gauge) (r : registry) : registry :=
  {| io_read_rate := io_read_rate r; io_write_rate := io_write_rate r;
     io_tps := io_tps r; io_read_bytes := io_read_bytes r;
     io_write_bytes := io_write_bytes r;
     cpu_avg_percent := cpu_avg_percent r;
     meminfo_gauges := g |}.

(** [meminfo_gauges[name] = Gauge(name, doc)]: a new gauge reads 0.0. *)
Definition new_meminfo_gauge (name doc : string) : M unit := fun r =>
  (with_meminfo_gauges
     (<[name := {| documentation := doc; value := float_zero |}]>
        (meminfo_gauges r)) r,
   Return tt).

(** [meminfo_gauges[name].set(v)] for an int [v]: the gauge stores
    [float(v)], and nothing when that raises. *)
Definition set_meminfo_gauge (name : string) (v : Z) : M unit := fun r =>
  match meminfo_gauges r !! name with
  | Some g =>
      match float_of_int v with
      | Some x =>
          (with_meminfo_gauges
             (<[name := {| documentation := documentation g; value := x |}]>
                (meminfo_gauges r)) r,
           Return tt)
      | None => (r, Raise OverflowError)
      end
  | None => (r, Raise KeyError)
  end.

(** [name not in meminfo_gauges] *)
Definition meminfo_gauge_absent (name : string) : M bool := fun r =>
  (r, Return (bool_decide (meminfo_gauges r !! name = None))).

(** ** collect_iostat_metrics *)

(** [cpu_avg_percent.labels(mode).set(float(cpu_vals[i]))]: the child is
    looked up, and created, before the argument is evaluated. *)
Definition set_cpu_mode (mode : string) (cpu_vals : list string) (i : nat) : M unit :=
  labels_cpu_avg_percent mode ;;
  s ← item cpu_vals i; v ← to_float s;
  set_cpu_avg_percent mode v.

(** Lines 50-59: the line after the CPU header. *)
Definition cpu_data_line (next : string) : M unit :=
  let cpu_vals := Py.split next in
  if (6 <=? length cpu_vals)%nat then
    set_cpu_mode "user" cpu_vals 0 ;;
    set_cpu_mode "nice" cpu_vals 1 ;;
    set_cpu_mode "system" cpu_vals 2 ;;
    set_cpu_mode "iowait" cpu_vals 3 ;;
    set_cpu_mode "steal" cpu_vals 4 ;;
    set_cpu_mode "idle" cpu_vals 5
  else ret tt.

(** Lines 47-60: [for i, line in enumerate(lines)], where the list is the
    part of [lines] from index [i] on, so that [lines[i+1]] is the head of
    its tail and [i+1 < len(lines)] says the tail is not empty.  The [break]
    ends the loop at the first header that has a line after it. *)
Fixpoint cpu_loop (lines : list string) : M unit :=
  match lines with
  | [] => ret tt
  | line :: rest =>
      if Py.contains "%user" line && bool_decide (rest <> []) then
        match rest with
        | next :: _ => cpu_data_line next
        | [] => raise IndexError
        end
      else cpu_loop rest
  end.

(** Lines 72-87: one line of the device section. *)
Definition device_record (line : string) : M unit :=
  let parts := Py.split line in
  if (4 <=? length parts)%nat then
    device ← item parts 0;
    s ← item parts 1; tps ← to_float s;
    s ← item parts 2; kb_read_sec ← to_float s;
    s ← item parts 3; kb_write_sec ← to_float s;
    labels_io_tps device ;; set_io_tps device tps ;;
    labels_io_read_rate device ;; set_io_read_rate device kb_read_sec ;;
    labels_io_write_rate device ;; set_io_write_rate device kb_write_sec ;;
    labels_io_read_bytes device ;;
    set_io_read_bytes device (mul_int kb_read_sec 1024) ;;
    labels_io_write_bytes device ;;
    set_io_write_bytes device (mul_int kb_write_sec 1024)
  else ret tt.

(** Lines 64-87: the second loop over all lines, with its flag. *)
Fixpoint device_loop (lines : list string) (device_section : bool) : M unit :=
  match lines with
  | [] => ret tt
  | line :: rest =>
      if Py.contains "Device" line then device_loop rest true
      else
        (if device_section && negb (String.eqb (Py.strip line) "")
         then device_record line else ret tt) ;;
        device_loop rest device_section
  end.

(** Lines 33-90: the body of the [try]; [run] is what [subprocess.run]
    gives, the captured standard output or the exception it raised. *)
Definition iostat_body (run : outcome string) : M bool :=
  iostat_output ← (fun r => (r, run));
  let lines := Py.splitlines iostat_output in
  cpu_loop lines ;;
  device_loop lines false ;;
  ret true.

(** [try: ... except Exception: return False]: the registry keeps whatever
    was written before the exception. *)
Definition catch_all (body : M bool) : registry -> registry * bool :=
  fun r =>
    match body r with
    | (r', Return b) => (r', b)
    | (r', Raise _) => (r', false)
    end.

Definition collect_iostat_metrics (run : outcome string) : registry -> registry * bool :=
  catch_all (iostat_body run).

(** ** collect_meminfo_metrics *)

(** Lines 143-144 *)
Definition sanitized_key (key : string) : string :=
  Py.sub_non_name (Py.lower key).

Definition metric_name (key : string) : string :=
  "meminfo_" +:+ sanitized_key key +:+ "_bytes".

(** Lines 125-154: one line of the file. *)
Definition meminfo_line (line : string) : M unit :=
  if Py.contains ":" line then
    match Py.split1 ":" line with
    | [key; value_str] =>
        let key := Py.strip key in
        match Py.search_digits (Py.strip value_str) with
        | Some digits =>
            value_kb ← to_int digits;
            let value_bytes := value_kb * 1024 in
            let name := metric_name key in
            absent ← meminfo_gauge_absent name;
            (if (absent : bool)
             then new_meminfo_gauge name ("Memory information: " +:+ key)
             else ret tt) ;;
            set_meminfo_gauge name value_bytes
        | None => ret tt
        end
    | _ => raise ValueError
    end
  else ret tt.

Fixpoint meminfo_loop (lines : list string) : M unit :=
  match lines with
  | [] => ret tt
  | line :: rest => meminfo_line line ;; meminfo_loop rest
  end.

(** Lines 118-158; [read] is what opening /proc/meminfo and [readlines]
    give, the lines or the exception raised. *)
Definition meminfo_body (read : outcome (list string)) : M bool :=
  lines ← (fun r => (r, read));
  meminfo_loop lines ;;
  ret true.

Definition collect_meminfo_metrics (read : outcome (list string)) : registry -> registry * bool :=
  catch_all (meminfo_body read).

(** ** What one device record amounts to

    The registry after lines 81-85 for the device [device]. *)
Definition write_device (device : string) (tps kb_read_sec kb_write_sec : F)
    (r : registry) : registry :=
  {| io_read_rate := <[device := kb_read_sec]> (io_read_rate r);
     io_write_rate := <[device := kb_write_sec]> (io_write_rate r);
     io_tps := <[device := tps]> (io_tps r);
     io_read_bytes := <[device := mul_int kb_read_sec 1024]> (io_read_bytes r);
     io_write_bytes := <[device := mul_int kb_write_sec 1024]> (io_write_bytes r);
     cpu_avg_percent := cpu_avg_percent r;
     meminfo_gauges := meminfo_gauges r |}.

(** The five values of one device, as the registry holds them. *)
Definition device_metrics (dev : string) (r : registry) : list (option F) :=
  [io_tps r !! dev; io_read_rate r !! dev; io_write_rate r !! dev;
   io_read_bytes r !! dev; io_write_bytes r !! dev].

(** ** What one line of /proc/meminfo amounts to

    The pair of stripped key and value in bytes that lines 125-138 extract,
    when they extract one. *)
Definition meminfo_entry (line : string) : option (string * Z) :=
  if Py.contains ":" line then
    match Py.split1 ":" line with
    | [key; value_str] =>
        match Py.search_digits (Py.strip value_str) with
        | Some digits =>
            match Py.int_limit int_max_str_digits digits with
            | Some value_kb => Some (Py.strip key, value_kb * 1024)
            | None => None
            end
        | None => None
        end
    | _ => None
    end
  else None.

(** ** The writes of a call, apart from the registry they land on

    What a call does to one child of a labelled gauge: it looks the child
    up ([None]: the child is created at 0.0 when absent and is left as it is
    otherwise) or it also sets it ([Some v]).  What it does to one memory
    gauge: it registers the gauge under a documentation string when it is
    absent, and it may set its value. *)
Definition write_child (w : option F) (old : option F) : F :=
  match w with
  | Some v => v
  | None => default float_zero old
  end.

Definition write_gauge (w : string * option F) (old : option Gauge) : Gauge :=
  {| documentation :=
       match old with Some g => documentation g | None => w.1 end;
     value := write_child w.2 (value <$> old) |}.

(** A later write to the same child or gauge, after an earlier one. *)
Definition then_child (new old : option F) : option F :=
  match new with
  | Some v => Some v
  | None => old
  end.

Definition then_gauge (new old : string * option F) : string * option F :=
  (old.1, then_child new.2 old.2).

(** The writes [d], one for each key it has, applied to a gauge or to the
    dictionary of gauges; and the writes [new] after the writes [old]. *)
Definition apply_writes {D V} (app : D -> option V -> V)
    (d : gmap string D) (g : gmap string V) : gmap string V :=
  merge (fun w old => match w with Some w => Some (app w old) | None => old end)
        d g.

Definition then_writes {D} (comp : D -> D -> D) (new old : gmap string D) :
    gmap string D :=
  union_with (fun n o => Some (comp n o)) new old.

(** The digits that lines 125-131 find in a line, when they find some. *)
Definition meminfo_digits (line : string) : option string :=
  if Py.contains ":" line then
    match Py.split1 ":" line with
    | [key; value_str] => Py.search_digits (Py.strip value_str)
    | _ => None
    end
  else None.

(** Lines 147-154 on the dictionary: create on first sight, then set to
    [v], or to nothing when the conversion of the value raised. *)
Definition upsert (key : string) (v : option F) (g : gmap string Gauge) :
    gmap string Gauge :=
  <[metric_name key :=
      write_gauge ("Memory information: " +:+ key, v) (g !! metric_name key)]> g.

(** How a line whose value in bytes is the int [v] ends: [Gauge.set]
    raises when [float(v)] does. *)
Definition meminfo_line_outcome (v : Z) : outcome unit :=
  match float_of_int v with
  | Some _ => Return tt
  | None => Raise OverflowError
  end.

(** The writes of a call to all gauges. *)
Record writes := {
  w_io_read_rate : gmap string (option F);
  w_io_write_rate : gmap string (option F);
  w_io_tps : gmap string (option F);
  w_io_read_bytes : gmap string (option F);
  w_io_write_bytes : gmap string (option F);
  w_cpu_avg_percent : gmap string (option F);
  w_meminfo_gauges : gmap string (string * option F)
}.

Definition no_writes : writes :=
  {| w_io_read_rate := ∅; w_io_write_rate := ∅; w_io_tps := ∅;
     w_io_read_bytes := ∅; w_io_write_bytes := ∅; w_cpu_avg_percent := ∅;
     w_meminfo_gauges := ∅ |}.

(** [overlay d r] is [r] with the writes [d] laid over it. *)
Definition overlay (d : writes) (r : registry) : registry :=
  {| io_read_rate := apply_writes write_child (w_io_read_rate d) (io_read_rate r);
     io_write_rate := apply_writes write_child (w_io_write_rate d) (io_write_rate r);
     io_tps := apply_writes write_child (w_io_tps d) (io_tps r);
     io_read_bytes := apply_writes write_child (w_io_read_bytes d) (io_read_bytes r);
     io_write_bytes := apply_writes write_child (w_io_write_bytes d) (io_write_bytes r);
     cpu_avg_percent := apply_writes write_child (w_cpu_avg_percent d) (cpu_avg_percent r);
     meminfo_gauges := apply_writes write_gauge (w_meminfo_gauges d) (meminfo_gauges r) |}.

Definition then_all (new old : writes) : writes :=
  {| w_io_read_rate := then_writes then_child (w_io_read_rate new) (w_io_read_rate old);
     w_io_write_rate := then_writes then_child (w_io_write_rate new) (w_io_write_rate old);
     w_io_tps := then_writes then_child (w_io_tps new) (w_io_tps old);
     w_io_read_bytes := then_writes then_child (w_io_read_bytes new) (w_io_read_bytes old);
     w_io_write_bytes := then_writes then_child (w_io_write_bytes new) (w_io_write_bytes old);
     w_cpu_avg_percent := then_writes then_child (w_cpu_avg_percent new) (w_cpu_avg_percent old);
     w_meminfo_gauges := then_writes then_gauge (w_meminfo_gauges new) (w_meminfo_gauges old) |}.

(** A computation writes blindly when its outcome and its writes do not
    depend on the registry it starts from. *)
Definition blind {A} (c : M A) : Prop :=
  exists d o, forall r, c r = (overlay d r, o).

(** A computation leaves the component [f] of the registry alone. *)
Definition preserves {A X} (f : registry -> X) (c : M A) : Prop :=
  forall r, f (c r).1 = f r.

(** [f] does not read the CPU gauge. *)
Definition cpu_free {X} (f : registry -> X) : Prop :=
  forall label,
    preserves f (labels_cpu_avg_percent label)
    /\ forall v, preserves f (set_cpu_avg_percent label v).

(** ** Which lines the disk sampler converts

    The line the CPU loop reads (the one after the first header that has a
    line after it), and the lines the device loop treats as its section
    (those after the first header). *)
Fixpoint cpu_data_of (lines : list string) : option string :=
  match lines with
  | [] => None
  | line :: rest =>
      if Py.contains "%user" line then head rest else cpu_data_of rest
  end.

Fixpoint device_section_of (lines : list string) : list string :=
  match lines with
  | [] => []
  | line :: rest =>
      if Py.contains "Device" line then rest else device_section_of rest
  end.

Definition converts (s : string) : bool :=
  match float s with Some _ => true | None => false end.

(** No conversion of lines 53-58 raises on this line. *)
Definition cpu_line_ok (data : string) : bool :=
  let cpu_vals := Py.split data in
  (length cpu_vals <? 6)%nat || forallb converts (take 6 cpu_vals).

(** No conversion of lines 76-78 raises on this line of the section. *)
Definition record_ok (line : string) : bool :=
  let parts := Py.split line in
  Py.contains "Device" line || (length parts <? 4)%nat
  || forallb converts (take 3 (drop 1 parts)).

(** ** The main loop

    Lines 165-175.  The gauges are created empty when the module is loaded
    (lines 14-22 and 98); the loop then polls for ever and drops what the
    samplers return.  One iteration is [cycle]; [main_loop answers r] is the
    registry after [length answers] iterations that start from [r], when the
    k-th iteration gets the k-th pair of answers from iostat and from
    /proc/meminfo.  The HTTP server only reads the registry and [sleep]
    does not touch it. *)
Definition cycle (run : outcome string) (read : outcome (list string))
    (r : registry) : registry :=
  let after_iostat := (collect_iostat_metrics run r).1 in
  (collect_meminfo_metrics read after_iostat).1.

Fixpoint main_loop (answers : list (outcome string * outcome (list string)))
    (r : registry) : registry :=
  match answers with
  | [] => r
  | (run, read) :: rest => main_loop rest (cycle run read r)
  end.

(** ** Properties of registries *)

(** The mode labels of lines 53-58, in the order they are set. *)
Definition cpu_modes : list string :=
  ["user"; "nice"; "system"; "iowait"; "steal"; "idle"].

(** [g.labels(l).set(v)] for each pair of a list, left to right. *)
Definition set_all (kvs : list (string * F)) (g : gmap string F) : gmap string F :=
  foldl (fun m kv => <[kv.1 := kv.2]> m) g kvs.

(** Nothing of [r] is lost in [r']: every child of a labelled gauge is
    still there, and every memory gauge is still there with the
    documentation it had. *)
Definition grows (r r' : registry) : Prop :=
  dom (io_read_rate r) ⊆ dom (io_read_rate r')
  /\ dom (io_write_rate r) ⊆ dom (io_write_rate r')
  /\ dom (io_tps r) ⊆ dom (io_tps r')
  /\ dom (io_read_bytes r) ⊆ dom (io_read_bytes r')
  /\ dom (io_write_bytes r) ⊆ dom (io_write_bytes r')
  /\ dom (cpu_avg_percent r) ⊆ dom (cpu_avg_percent r')
  /\ forall name g,
       meminfo_gauges r !! name = Some g ->
       exists g', meminfo_gauges r' !! name = Some g'
                  /\ documentation g' = documentation g.

(** The five device gauges agree: they have the same devices, and each byte
    rate is the rate in KB times 1024. *)
Definition io_consistent (r : registry) : Prop :=
  forall dev,
    io_read_bytes r !! dev
      = (fun x => mul_int x 1024) <$> io_read_rate r !! dev
    /\ io_write_bytes r !! dev
      = (fun x => mul_int x 1024) <$> io_write_rate r !! dev
    /\ (io_tps r !! dev = None <-> io_read_rate r !! dev = None)
    /\ (io_tps r !! dev = None <-> io_write_rate r !! dev = None).

End Samplers.

Arguments Return {A} a.
Arguments Raise {A} e.
Arguments Gauge F : clear implicits.
Arguments registry F : clear implicits.
Arguments writes F : clear implicits.
Arguments M F A : clear implicits.
Arguments apply_writes : simpl never.
Arguments child : simpl never.

(** ** Sample inputs *)

Module Samples.

Definition nl : string := String "010" "".

(** The lines joined by newlines, as a command prints them. *)
Definition text (lines : list string) : string := String.concat nl lines.

Definition iostat_typical : string :=
  text ["Linux 5.15.0 (host)   03/11/25   _x86_64_   (4 CPU)";
        "";
        "avg-cpu:  %user   %nice %system %iowait  %steal   %idle";
        "           1.50    0.00    0.75    0.25    0.00   97.50";
        "";
        "Device             tps    kB_read/s    kB_wrtn/s";
        "sda 5.0 100.0 200.0";
        ""].

Definition iostat_device_only : string :=
  text ["Device tps kB_read/s kB_wrtn/s"; "sda 5.0 100.0 200.0"].

(** A first %user line followed by an empty line, then the real header. *)
Definition iostat_two_cpu_headers : string :=
  text ["avg-cpu:  %user   %nice %system";
        "";
        "avg-cpu:  %user   %nice %system %iowait  %steal   %idle";
        "   1.5 0.0 0.75 0.25 0.0 97.5"].

Definition iostat_bad_before_good : string :=
  text ["Device tps kB_read/s kB_wrtn/s";
        "sdb x y z";
        "sda 5.0 100.0 200.0"].

Definition iostat_good_bad_good : string :=
  text ["Device tps kB_read/s kB_wrtn/s";
        "sda 1 2 3";
        "sdb x y z";
        "sdc 4 5 6"].

Definition iostat_repeated_device_header : string :=
  text ["Device tps kB_read/s kB_wrtn/s";
        "sda 5.0 100.0 200.0";
        "Device tps kB_read/s kB_wrtn/s"].

Definition iostat_no_headers : string :=
  text ["Linux 5.15.0 (host)"; "nothing to report"].


(** A value of 307 digits: its product with 1024 is beyond the doubles. *)
Definition huge_value : string := "1" +:+ string_of_list_ascii (replicate 306 "0"%char).


Definition meminfo_duplicate_huge : list string :=
  ["MemTotal:       5 kB" +:+ nl;
   ("memtotal:       " +:+ huge_value +:+ " kB") +:+ nl].



Definition meminfo_duplicate : list string :=
  ["MemTotal:       16384 kB" +:+ nl;
   "MemFree:         1024 kB" +:+ nl;
   "memtotal:           2 kB" +:+ nl;
   "HugePages_Total:       0" +:+ nl].

End Samples.

(** ** The metric name as the specification words it *)

(** The characters [[a-z0-9_]]. *)
Definition in_lower_name_class (c : ascii) : bool :=
  let n := N_of_ascii c in
  ((97 <=? n) && (n <=? 122) || (48 <=? n) && (n <=? 57) || (n =? 95))%N.

Fixpoint replace_outside_lower_name_class (s : string) : string :=
  match s with
  | EmptyString => EmptyString
  | String c s' =>
      String (if in_lower_name_class c then c else "_"%char)
             (replace_outside_lower_name_class s')
  end.

(** Lowercase the key, replace every character outside [[a-z0-9_]]. *)
Definition spec_sanitized_key (key : string) : string :=
  replace_outside_lower_name_class (Py.lower key).

(** Every character of [s] satisfies [p]. *)
Fixpoint string_forallb (p : ascii -> bool) (s : string) : bool :=
  match s with
  | EmptyString => true
  | String c s' => p c && string_forallb p s'
  end.

(** Every memory gauge holds the float of a whole, non-negative number of
    KB in bytes, or the 0.0 it was created with. *)
Definition meminfo_values_ok {F} {FM : FloatModel F} (r : registry F) : Prop :=
  forall name g,
    meminfo_gauges r !! name = Some g ->
    value g = float_zero
    \/ exists n, 0 <= n /\ float_of_int (n * 1024) = Some (value g).

(** Every memory gauge is registered under a name over [[a-z0-9_]]. *)
Definition meminfo_names_ok {F} (r : registry F) : Prop :=
  forall name g,
    meminfo_gauges r !! name = Some g ->
    string_forallb in_lower_name_class name = true.

(** * Properties *)

(** ** Strings *)

Lemma prefix_char_cons (c d : ascii) (s : string) :
  String.prefix (String c "") (String d s) = Ascii.eqb d c.
Proof.
  simpl. destruct (Ascii.ascii_dec c d) as [->|Hne].
  - rewrite Ascii.eqb_refl. by destruct s.
  - symmetry. apply Ascii.eqb_neq. congruence.
Qed.

Lemma prefix_spec (p s : string) :
  String.prefix p s = true <-> exists b, s = p +:+ b.
Proof.
  revert s. induction p as [|c p IH]; intros s.
  - split; [intros _; by exists s | by destruct s].
  - destruct s as [|d s]; [split; [done | by intros [b ?]]|].
    cbn [String.prefix]. destruct (Ascii.ascii_dec c d) as [->|Hne].
    + rewrite IH. split; intros [b Hb]; exists b.
      * change (String d s = String d (p +:+ b)). by rewrite Hb.
      * change (String d s = String d (p +:+ b)) in Hb. congruence.
    + split; [done|]. intros [b Hb].
      change (String d s = String c (p +:+ b)) in Hb. congruence.
Qed.

(** [sub in s] holds exactly when [s] is some text, then [sub], then some
    text. *)
Lemma contains_spec (sub s : string) :
  Py.contains sub s = true <-> exists a b, s = a +:+ sub +:+ b.
Proof.
  induction s as [|c s IH]; cbn [Py.contains].
  - rewrite orb_false_r, prefix_spec. split.
    + intros [b Hb]. by exists "", b.
    + intros (a & b & H). destruct a; [by exists b|discriminate].
  - rewrite orb_true_iff, prefix_spec, IH. split.
    + intros [[b Hb]|(a & b & Hab)]; [by exists "", b|].
      exists (String c a), b.
      change (String c s = String c (a +:+ sub +:+ b)). by rewrite Hab.
    + intros (a & b & H). destruct a as [|d a]; [left; by exists b|].
      right. exists a, b.
      change (String c s = String d (a +:+ sub +:+ b)) in H. congruence.
Qed.

Lemma contains_split1 (c : ascii) (s : string) :
  Py.contains (String c "") s = true ->
  exists a b, Py.split1 c s = [a; b].
Proof.
  induction s as [|d s IH]; [discriminate|].
  cbn [Py.contains Py.split1]. rewrite prefix_char_cons.
  destruct (Ascii.eqb d c); [eauto|].
  intros H. destruct (IH H) as (a & b & ->). eauto.
Qed.





Lemma rstrip_nonspace (c : ascii) (s : string) :
  Py.isspace c = false -> Py.rstrip (String c s) <> "".
Proof. intros H. cbn [Py.rstrip]. rewrite H. by destruct (Py.rstrip s). Qed.

Lemma split_strip (s : string) :
  Py.split s <> [] -> String.eqb (Py.strip s) "" = false.
Proof.
  intros H. apply String.eqb_neq. revert H.
  induction s as [|c s IH]; [done|].
  unfold Py.strip in *. cbn [Py.split Py.lstrip].
  destruct (Py.isspace c) eqn:E; [exact IH|].
  intros _. by apply rstrip_nonspace.
Qed.

Lemma lower_char_not_upper (c : ascii) :
  Py.in_name_class (Py.lower_char c) = in_lower_name_class (Py.lower_char c).
Proof. destruct c as [[] [] [] [] [] [] [] []]; reflexivity. Qed.

Lemma sanitized_key_spec (key : string) :
  sanitized_key key = spec_sanitized_key key.
Proof.
  unfold sanitized_key, spec_sanitized_key.
  induction key as [|c key IH]; [done|]. simpl.
  by rewrite lower_char_not_upper, IH.
Qed.

(** ** Running computations *)

Section Properties.

Context {F : Type} {FM : FloatModel F}.

Implicit Types (r : registry F) (d : writes F) (line : string)
  (lines : list string).

#[local] Abbreviation blind := (@blind F _).

Lemma bind_run {A B} (c : M F A) (k : A -> M F B) r :
  (c ≫= k) r
  = match c r with
    | (r', Return a) => k a r'
    | (r', Raise e) => (r', Raise e)
    end.
Proof. reflexivity. Qed.

Lemma registry_eq r1 r2 :
  io_read_rate r1 = io_read_rate r2 ->
  io_write_rate r1 = io_write_rate r2 ->
  io_tps r1 = io_tps r2 ->
  io_read_bytes r1 = io_read_bytes r2 ->
  io_write_bytes r1 = io_write_bytes r2 ->
  cpu_avg_percent r1 = cpu_avg_percent r2 ->
  meminfo_gauges r1 = meminfo_gauges r2 ->
  r1 = r2.
Proof. destruct r1, r2; simpl; congruence. Qed.

(** ** The algebra of writes *)

Section Writes.

Context {D V : Type} (app : D -> option V -> V) (comp : D -> D -> D).

Lemma lookup_apply_writes (w : gmap string D) (g : gmap string V) i :
  apply_writes app w g !! i
  = match w !! i with
    | Some x => Some (app x (g !! i))
    | None => g !! i
    end.
Proof.
  unfold apply_writes. rewrite lookup_merge.
  by destruct (w !! i), (g !! i).
Qed.

Lemma apply_writes_empty (g : gmap string V) : apply_writes app ∅ g = g.
Proof.
  apply map_eq; intros i. by rewrite lookup_apply_writes, lookup_empty.
Qed.

Lemma apply_writes_singleton i x (g : gmap string V) :
  apply_writes app {[i := x]} g = <[i := app x (g !! i)]> g.
Proof.
  apply map_eq; intros j. rewrite lookup_apply_writes.
  destruct (decide (i = j)) as [<-|Hne].
  - by rewrite lookup_singleton_eq, lookup_insert_eq.
  - by rewrite lookup_singleton_ne, lookup_insert_ne.
Qed.

Lemma apply_writes_then (new old : gmap string D) (g : gmap string V) :
  (forall n o x, app n (Some (app o x)) = app (comp n o) x) ->
  apply_writes app new (apply_writes app old g)
  = apply_writes app (then_writes comp new old) g.
Proof.
  intros Hlaw. apply map_eq; intros i. unfold then_writes.
  rewrite !lookup_apply_writes, lookup_union_with.
  destruct (new !! i), (old !! i); simpl; by rewrite ?Hlaw.
Qed.

Lemma then_writes_same (w : gmap string D) :
  (forall x, comp x x = x) -> then_writes comp w w = w.
Proof.
  intros Hsame. apply map_eq; intros i. unfold then_writes.
  rewrite lookup_union_with. destruct (w !! i); simpl; by rewrite ?Hsame.
Qed.

Lemma apply_writes_keeps (w : gmap string D) (g : gmap string V) i v :
  g !! i = Some v -> exists v', apply_writes app w g !! i = Some v'.
Proof.
  intros Hi. rewrite lookup_apply_writes, Hi. destruct (w !! i); eauto.
Qed.

End Writes.

Lemma write_child_then (n o x : option F) :
  write_child n (Some (write_child o x)) = write_child (then_child n o) x.
Proof. by destruct n, o, x. Qed.

Lemma write_gauge_then (n o : string * option F) (x : option (Gauge F)) :
  write_gauge n (Some (write_gauge o x)) = write_gauge (then_gauge n o) x.
Proof. destruct n as [? []], o as [? []], x as [[]|]; reflexivity. Qed.

Lemma then_child_same (x : option F) : then_child x x = x.
Proof. by destruct x. Qed.

Lemma then_gauge_same (x : string * option F) : then_gauge x x = x.
Proof. destruct x as [? []]; reflexivity. Qed.

Lemma overlay_then d1 d2 r :
  overlay d1 (overlay d2 r) = overlay (then_all d1 d2) r.
Proof.
  apply registry_eq; simpl;
    first [apply apply_writes_then, write_child_then
          | apply apply_writes_then, write_gauge_then].
Qed.

Lemma then_all_same d : then_all d d = d.
Proof.
  destruct d; unfold then_all; simpl; f_equal;
    first [apply then_writes_same, then_child_same
          | apply then_writes_same, then_gauge_same].
Qed.

Lemma overlay_absorb d r : overlay d (overlay d r) = overlay d r.
Proof. by rewrite overlay_then, then_all_same. Qed.

Lemma overlay_no_writes r : overlay no_writes r = r.
Proof. apply registry_eq; simpl; apply apply_writes_empty. Qed.

Lemma insert_as_write label v (g : gmap string F) :
  <[label := v]> g = apply_writes write_child {[label := Some v]} g.
Proof. by rewrite apply_writes_singleton. Qed.

Lemma child_as_write label (g : gmap string F) :
  child label g = apply_writes write_child {[label := @None F]} g.
Proof.
  rewrite apply_writes_singleton. unfold child.
  destruct (g !! label) as [x|] eqn:Hl; [|done].
  symmetry. by apply insert_id.
Qed.

Lemma upsert_as_write key v (g : gmap string (Gauge F)) :
  upsert key v g
  = apply_writes write_gauge
      {[metric_name key := ("Memory information: " +:+ key, v)]} g.
Proof. by rewrite apply_writes_singleton. Qed.

(** ** Blind writers *)

Lemma blind_const {A} (o : outcome A) : blind (fun r => (r, o)).
Proof. exists no_writes, o. intros r. by rewrite overlay_no_writes. Qed.

Lemma blind_ret {A} (a : A) : blind (ret a).
Proof. apply blind_const. Qed.

Lemma blind_raise {A} (e : exn) : blind (raise e : M F A).
Proof. apply blind_const. Qed.

Lemma blind_bind {A B} (c : M F A) (k : A -> M F B) :
  blind c -> (forall a, blind (k a)) -> blind (c ≫= k).
Proof.
  intros (d & [a|e] & Hc) Hk.
  - destruct (Hk a) as (d' & o' & Hka). exists (then_all d' d), o'.
    intros r. by rewrite bind_run, Hc, Hka, overlay_then.
  - exists d, (Raise e). intros r. by rewrite bind_run, Hc.
Qed.

Lemma blind_item (xs : list string) (i : nat) : blind (item xs i).
Proof. unfold item. destruct (xs !! i); [apply blind_ret | apply blind_raise]. Qed.

Lemma blind_to_float (s : string) : blind (to_float s).
Proof. unfold to_float. destruct (float s); [apply blind_ret | apply blind_raise]. Qed.

Lemma blind_to_int (s : string) : blind (to_int s).
Proof.
  unfold to_int. destruct (Py.int_limit _ s); [apply blind_ret | apply blind_raise].
Qed.

(** Each primitive on a labelled gauge is one write to one child. *)
Ltac blind_write d :=
  exists d, (Return tt); intros r;
  unfold set_io_read_rate, set_io_write_rate, set_io_tps, set_io_read_bytes,
    set_io_write_bytes, set_cpu_avg_percent, labels_io_read_rate,
    labels_io_write_rate, labels_io_tps, labels_io_read_bytes,
    labels_io_write_bytes, labels_cpu_avg_percent;
  f_equal; apply registry_eq; cbn;
  rewrite ?apply_writes_empty;
  first [reflexivity | apply insert_as_write | apply child_as_write].

Lemma blind_labels_io_read_rate label : blind (labels_io_read_rate label).
Proof.
  blind_write {| w_io_read_rate := {[label := @None F]}; w_io_write_rate := ∅;
    w_io_tps := ∅; w_io_read_bytes := ∅; w_io_write_bytes := ∅;
    w_cpu_avg_percent := ∅; w_meminfo_gauges := ∅ |}.
Qed.

Lemma blind_labels_io_write_rate label : blind (labels_io_write_rate label).
Proof.
  blind_write {| w_io_read_rate := ∅; w_io_write_rate := {[label := @None F]};
    w_io_tps := ∅; w_io_read_bytes := ∅; w_io_write_bytes := ∅;
    w_cpu_avg_percent := ∅; w_meminfo_gauges := ∅ |}.
Qed.

Lemma blind_labels_io_tps label : blind (labels_io_tps label).
Proof.
  blind_write {| w_io_read_rate := ∅; w_io_write_rate := ∅;
    w_io_tps := {[label := @None F]}; w_io_read_bytes := ∅;
    w_io_write_bytes := ∅; w_cpu_avg_percent := ∅; w_meminfo_gauges := ∅ |}.
Qed.

Lemma blind_labels_io_read_bytes label : blind (labels_io_read_bytes label).
Proof.
  blind_write {| w_io_read_rate := ∅; w_io_write_rate := ∅; w_io_tps := ∅;
    w_io_read_bytes := {[label := @None F]}; w_io_write_bytes := ∅;
    w_cpu_avg_percent := ∅; w_meminfo_gauges := ∅ |}.
Qed.

Lemma blind_labels_io_write_bytes label : blind (labels_io_write_bytes label).
Proof.
  blind_write {| w_io_read_rate := ∅; w_io_write_rate := ∅; w_io_tps := ∅;
    w_io_read_bytes := ∅; w_io_write_bytes := {[label := @None F]};
    w_cpu_avg_percent := ∅; w_meminfo_gauges := ∅ |}.
Qed.

Lemma blind_labels_cpu_avg_percent label : blind (labels_cpu_avg_percent label).
Proof.
  blind_write {| w_io_read_rate := ∅; w_io_write_rate := ∅; w_io_tps := ∅;
    w_io_read_bytes := ∅; w_io_write_bytes := ∅;
    w_cpu_avg_percent := {[label := @None F]}; w_meminfo_gauges := ∅ |}.
Qed.

Lemma blind_set_io_read_rate label v : blind (set_io_read_rate label v).
Proof.
  blind_write {| w_io_read_rate := {[label := Some v]}; w_io_write_rate := ∅;
    w_io_tps := ∅; w_io_read_bytes := ∅; w_io_write_bytes := ∅;
    w_cpu_avg_percent := ∅; w_meminfo_gauges := ∅ |}.
Qed.

Lemma blind_set_io_write_rate label v : blind (set_io_write_rate label v).
Proof.
  blind_write {| w_io_read_rate := ∅; w_io_write_rate := {[label := Some v]};
    w_io_tps := ∅; w_io_read_bytes := ∅; w_io_write_bytes := ∅;
    w_cpu_avg_percent := ∅; w_meminfo_gauges := ∅ |}.
Qed.

Lemma blind_set_io_tps label v : blind (set_io_tps label v).
Proof.
  blind_write {| w_io_read_rate := ∅; w_io_write_rate := ∅;
    w_io_tps := {[label := Some v]}; w_io_read_bytes := ∅;
    w_io_write_bytes := ∅; w_cpu_avg_percent := ∅; w_meminfo_gauges := ∅ |}.
Qed.

Lemma blind_set_io_read_bytes label v : blind (set_io_read_bytes label v).
Proof.
  blind_write {| w_io_read_rate := ∅; w_io_write_rate := ∅; w_io_tps := ∅;
    w_io_read_bytes := {[label := Some v]}; w_io_write_bytes := ∅;
    w_cpu_avg_percent := ∅; w_meminfo_gauges := ∅ |}.
Qed.

Lemma blind_set_io_write_bytes label v : blind (set_io_write_bytes label v).
Proof.
  blind_write {| w_io_read_rate := ∅; w_io_write_rate := ∅; w_io_tps := ∅;
    w_io_read_bytes := ∅; w_io_write_bytes := {[label := Some v]};
    w_cpu_avg_percent := ∅; w_meminfo_gauges := ∅ |}.
Qed.

Lemma blind_set_cpu_avg_percent label v : blind (set_cpu_avg_percent label v).
Proof.
  blind_write {| w_io_read_rate := ∅; w_io_write_rate := ∅; w_io_tps := ∅;
    w_io_read_bytes := ∅; w_io_write_bytes := ∅;
    w_cpu_avg_percent := {[label := Some v]}; w_meminfo_gauges := ∅ |}.
Qed.

(** A blind writer run again from where it ended writes the same values
    over themselves. *)
Lemma blind_twice {A} (c : M F A) r :
  blind c -> c (c r).1 = ((c r).1, (c r).2).
Proof.
  intros (d & o & Hc). rewrite (Hc (c r).1), (Hc r). simpl.
  by rewrite overlay_absorb.
Qed.

Create HintDb blind.

#[local] Hint Resolve blind_ret blind_raise blind_const blind_item
  blind_to_float blind_to_int blind_set_io_read_rate blind_set_io_write_rate
  blind_set_io_tps blind_set_io_read_bytes blind_set_io_write_bytes
  blind_set_cpu_avg_percent blind_labels_io_read_rate
  blind_labels_io_write_rate blind_labels_io_tps blind_labels_io_read_bytes
  blind_labels_io_write_bytes blind_labels_cpu_avg_percent : blind.

Ltac blind_seq := repeat (apply blind_bind; [|intros ?]); auto with blind.

Lemma blind_set_cpu_mode mode cpu_vals i : blind (set_cpu_mode mode cpu_vals i).
Proof. unfold set_cpu_mode. blind_seq. Qed.

#[local] Hint Resolve blind_set_cpu_mode : blind.

Lemma blind_cpu_data_line next : blind (cpu_data_line next).
Proof.
  unfold cpu_data_line. destruct (6 <=? _)%nat; [|apply blind_ret]. blind_seq.
Qed.

Lemma blind_cpu_loop lines : blind (cpu_loop lines).
Proof.
  induction lines as [|line rest IH]; [apply blind_ret|].
  cbn [cpu_loop]. destruct (_ && _); [|exact IH].
  destruct rest; [apply blind_raise | apply blind_cpu_data_line].
Qed.

Lemma blind_device_record line : blind (device_record line).
Proof.
  unfold device_record. destruct (4 <=? _)%nat; [|apply blind_ret]. blind_seq.
Qed.

Lemma blind_device_loop lines device_section :
  blind (device_loop lines device_section).
Proof.
  revert device_section.
  induction lines as [|line rest IH]; intros flag; [apply blind_ret|].
  cbn [device_loop]. destruct (Py.contains "Device" line); [apply IH|].
  apply blind_bind; [|intros _; apply IH].
  destruct (_ && _); [apply blind_device_record | apply blind_ret].
Qed.

Lemma blind_iostat_body run : blind (iostat_body run).
Proof.
  unfold iostat_body. apply blind_bind; [apply blind_const|]. intros out.
  apply blind_bind; [apply blind_cpu_loop|]. intros _.
  apply blind_bind; [apply blind_device_loop|]. intros _. apply blind_ret.
Qed.

(** ** The memory sampler as a fold *)

Lemma meminfo_line_run line r :
  meminfo_line line r
  = match meminfo_digits line with
    | Some digits =>
        match meminfo_entry line with
        | Some (key, v) =>
            (with_meminfo_gauges
               (upsert key (float_of_int v) (meminfo_gauges r)) r,
             meminfo_line_outcome v)
        | None => (r, Raise ValueError)
        end
    | None => (r, Return tt)
    end.
Proof.
  unfold meminfo_line, meminfo_entry, meminfo_digits.
  destruct (Py.contains ":" line) eqn:Hc; [|done].
  destruct (contains_split1 _ _ Hc) as (key & value_str & ->).
  destruct (Py.search_digits (Py.strip value_str)) as [digits|] eqn:Hd; [|done].
  unfold to_int. destruct (Py.int_limit _ digits) as [n|]; [|done].
  unfold upsert, meminfo_gauge_absent, new_meminfo_gauge, set_meminfo_gauge,
    meminfo_line_outcome, write_gauge.
  unfold mbind, M_bind, bind, ret. cbn.
  destruct (meminfo_gauges r !! metric_name (Py.strip key)) as [old|] eqn:Ho.
  - rewrite bool_decide_eq_false_2 by congruence. cbn. rewrite Ho.
    destruct (float_of_int (n * 1024)) as [x|]; cbn; [done|].
    f_equal. destruct r, old; unfold with_meminfo_gauges; cbn in *.
    f_equal. symmetry. by apply insert_id.
  - rewrite bool_decide_eq_true_2 by done. cbn.
    rewrite lookup_insert_eq. cbn.
    destruct (float_of_int (n * 1024)) as [x|]; cbn; [|done].
    by rewrite insert_insert_eq.
Qed.

(** The registry after a line, whatever its outcome. *)
Lemma meminfo_line_registry line r :
  (meminfo_line line r).1
  = match meminfo_entry line with
    | Some (key, v) =>
        with_meminfo_gauges (upsert key (float_of_int v) (meminfo_gauges r)) r
    | None => r
    end.
Proof.
  rewrite meminfo_line_run. unfold meminfo_entry, meminfo_digits.
  destruct (Py.contains ":" line); [|done].
  destruct (Py.split1 ":" line) as [|? [|? [|]]]; try done.
  destruct (Py.search_digits _); [|done].
  by destruct (Py.int_limit _ _).
Qed.

Lemma blind_meminfo_line line : blind (meminfo_line line).
Proof.
  destruct (meminfo_digits line) as [digits|] eqn:Hd;
    [destruct (meminfo_entry line) as [[key v]|] eqn:He|].
  - exists {| w_io_read_rate := ∅; w_io_write_rate := ∅; w_io_tps := ∅;
      w_io_read_bytes := ∅; w_io_write_bytes := ∅; w_cpu_avg_percent := ∅;
      w_meminfo_gauges :=
        {[metric_name key := ("Memory information: " +:+ key, float_of_int v)]} |},
      (meminfo_line_outcome v).
    intros r. rewrite meminfo_line_run, Hd, He. f_equal.
    apply registry_eq; cbn; rewrite ?apply_writes_empty; try done.
    apply upsert_as_write.
  - exists no_writes, (Raise ValueError). intros r.
    by rewrite meminfo_line_run, Hd, He, overlay_no_writes.
  - exists no_writes, (Return tt). intros r.
    by rewrite meminfo_line_run, Hd, overlay_no_writes.
Qed.

Lemma blind_meminfo_loop lines : blind (meminfo_loop lines).
Proof.
  induction lines as [|line rest IH]; [apply blind_ret|].
  cbn [meminfo_loop]. apply blind_bind; [apply blind_meminfo_line|].
  intros _. exact IH.
Qed.

Lemma blind_meminfo_body read : blind (meminfo_body read).
Proof.
  unfold meminfo_body. apply blind_bind; [apply blind_const|]. intros lines.
  apply blind_bind; [apply blind_meminfo_loop|]. intros _. apply blind_ret.
Qed.

Lemma catch_all_twice (body : M F bool) r :
  blind body ->
  catch_all body (catch_all body r).1 = ((catch_all body r).1, (catch_all body r).2).
Proof.
  intros Hb. pose proof (blind_twice body r Hb) as H2.
  unfold catch_all. destruct (body r) as [r' [b|e]]; simpl in *; by rewrite H2.
Qed.

(** C5.  Idempotence: with the same external input (the same result of the
    iostat run, the same result of reading /proc/meminfo) a second run of a
    sampler, started from the registry the first run left, changes nothing
    in the registry and returns the same boolean. *)
Theorem C5_samplers_idempotent :
  forall (run : outcome string) (read : outcome (list string)) (r : registry F),
    let after_iostat := (collect_iostat_metrics run r).1 in
    let after_meminfo := (collect_meminfo_metrics read r).1 in
    collect_iostat_metrics run after_iostat
      = (after_iostat, (collect_iostat_metrics run r).2)
    /\ collect_meminfo_metrics read after_meminfo
      = (after_meminfo, (collect_meminfo_metrics read r).2).
Proof.
  intros run read r. split.
  - apply catch_all_twice, blind_iostat_body.
  - apply catch_all_twice, blind_meminfo_body.
Qed.

(** ** Frames *)

Lemma preserves_ret {A X} (f : registry F -> X) (a : A) : preserves f (ret a).
Proof. by intros r. Qed.

Lemma preserves_raise {A X} (f : registry F -> X) (e : exn) :
  preserves f (raise e : M F A).
Proof. by intros r. Qed.

Lemma preserves_bind {A B X} (f : registry F -> X) (c : M F A) (k : A -> M F B) :
  preserves f c -> (forall a, preserves f (k a)) -> preserves f (c ≫= k).
Proof.
  intros Hc Hk r. rewrite bind_run. specialize (Hc r).
  destruct (c r) as [r' [a|e]]; simpl in *; [|done].
  by rewrite (Hk a r').
Qed.

Lemma preserves_item {X} (f : registry F -> X) xs i : preserves f (item xs i).
Proof. unfold item. by destruct (xs !! i). Qed.

Lemma preserves_to_float {X} (f : registry F -> X) s : preserves f (to_float s).
Proof. unfold to_float. by destruct (float s). Qed.

Lemma set_cpu_mode_preserves {X} (f : registry F -> X) mode cpu_vals i :
  cpu_free f -> preserves f (set_cpu_mode mode cpu_vals i).
Proof.
  intros Hf. unfold set_cpu_mode. destruct (Hf mode) as [Hl Hs].
  repeat (apply preserves_bind; [|intros ?]);
    auto using preserves_item, preserves_to_float.
Qed.

Lemma cpu_data_line_preserves {X} (f : registry F -> X) next :
  cpu_free f -> preserves f (cpu_data_line next).
Proof.
  intros Hf. unfold cpu_data_line.
  destruct (6 <=? _)%nat; [|apply preserves_ret].
  repeat (apply preserves_bind; [by apply set_cpu_mode_preserves|intros ?]).
  by apply set_cpu_mode_preserves.
Qed.

Lemma cpu_loop_preserves {X} (f : registry F -> X) lines :
  cpu_free f -> preserves f (cpu_loop lines).
Proof.
  intros Hf. induction lines as [|line rest IH]; [apply preserves_ret|].
  cbn [cpu_loop]. destruct (_ && _); [|exact IH].
  destruct rest; [apply preserves_raise | by apply cpu_data_line_preserves].
Qed.

(** ** The CPU loop *)

Lemma cpu_loop_skip pre rest r :
  Forall (fun l => Py.contains "%user" l = false) pre ->
  cpu_loop (pre ++ rest) r = cpu_loop rest r.
Proof.
  induction 1 as [|l pre Hl _ IH]; [done|].
  cbn [app cpu_loop]. by rewrite Hl.
Qed.

Lemma cpu_loop_no_header lines r :
  Forall (fun l => Py.contains "%user" l = false) lines ->
  cpu_loop lines r = (r, Return tt).
Proof.
  intros H. rewrite <- (app_nil_r lines). by rewrite cpu_loop_skip.
Qed.

Lemma cpu_loop_header hdr data post r :
  Py.contains "%user" hdr = true ->
  cpu_loop (hdr :: data :: post) r = cpu_data_line data r.
Proof. intros H. cbn [cpu_loop]. by rewrite H. Qed.


(** Setting a child after looking it up is setting it. *)
Lemma insert_child label v (g : gmap string F) :
  <[label := v]> (child label g) = <[label := v]> g.
Proof.
  unfold child. destruct (g !! label); [done | apply insert_insert_eq].
Qed.

Lemma set_cpu_mode_run mode cpu_vals i r :
  set_cpu_mode mode cpu_vals i r
  = match cpu_vals !! i with
    | Some s =>
        match float s with
        | Some v => set_cpu_avg_percent mode v r
        | None => ((labels_cpu_avg_percent mode r).1, Raise ValueError)
        end
    | None => ((labels_cpu_avg_percent mode r).1, Raise IndexError)
    end.
Proof.
  unfold set_cpu_mode, item, to_float.
  unfold mbind, M_bind, bind, ret, raise. cbn.
  destruct (cpu_vals !! i) as [s|]; [|done]. destruct (float s); [|done].
  unfold set_cpu_avg_percent. cbn. by rewrite insert_child.
Qed.

Lemma cpu_data_line_ok data r f1 f2 f3 f4 f5 f6 rest v1 v2 v3 v4 v5 v6 :
  Py.split data = f1 :: f2 :: f3 :: f4 :: f5 :: f6 :: rest ->
  float f1 = Some v1 -> float f2 = Some v2 -> float f3 = Some v3 ->
  float f4 = Some v4 -> float f5 = Some v5 -> float f6 = Some v6 ->
  exists r',
    cpu_data_line data r = (r', Return tt)
    /\ cpu_avg_percent r'
       = <["idle" := v6]> (<["steal" := v5]> (<["iowait" := v4]>
           (<["system" := v3]> (<["nice" := v2]> (<["user" := v1]>
              (cpu_avg_percent r)))))).
Proof.
  intros Hs H1 H2 H3 H4 H5 H6. unfold cpu_data_line. rewrite Hs.
  cbn [length Nat.leb].
  repeat (rewrite bind_run, set_cpu_mode_run; cbn [lookup list_lookup];
          rewrite ?H1, ?H2, ?H3, ?H4, ?H5; cbn).
  rewrite set_cpu_mode_run. cbn [lookup list_lookup]. rewrite H6. cbn. eauto.
Qed.

(** ** The device loop *)

Lemma device_record_run line r :
  device_record line r
  = match Py.split line with
    | device :: f2 :: f3 :: f4 :: _ =>
        match float f2, float f3, float f4 with
        | Some tps, Some kb_read_sec, Some kb_write_sec =>
            (write_device device tps kb_read_sec kb_write_sec r, Return tt)
        | _, _, _ => (r, Raise ValueError)
        end
    | _ => (r, Return tt)
    end.
Proof.
  unfold device_record.
  destruct (Py.split line) as [|device [|f2 [|f3 [|f4 rest]]]]; try done.
  cbn [length Nat.leb]. unfold item, to_float. cbn [lookup list_lookup].
  unfold mbind, M_bind, bind, ret, raise. cbn.
  destruct (float f2); [|done]. destruct (float f3); [|done].
  destruct (float f4); [|done]. cbn.
  unfold write_device, set_io_write_bytes. cbn. by rewrite !insert_child.
Qed.

Lemma device_loop_no_header lines r :
  Forall (fun l => Py.contains "Device" l = false) lines ->
  device_loop lines false r = (r, Return tt).
Proof.
  induction 1 as [|l lines Hl _ IH]; [done|].
  cbn [device_loop]. rewrite Hl. cbn [andb]. by rewrite bind_run.
Qed.

Lemma device_loop_app pre post flag r :
  device_loop (pre ++ post) flag r
  = match device_loop pre flag r with
    | (r1, Return _) =>
        device_loop post (flag || existsb (Py.contains "Device") pre) r1
    | (r1, Raise e) => (r1, Raise e)
    end.
Proof.
  revert flag r. induction pre as [|l pre IH]; intros flag r.
  - cbn. by rewrite orb_false_r.
  - cbn [app device_loop existsb].
    destruct (Py.contains "Device" l) eqn:Hl.
    + rewrite IH. cbn [orb]. by rewrite orb_true_r.
    + rewrite !bind_run.
      destruct (if flag && _ then _ else _) as [r1 [[]|e]]; [|done].
      rewrite IH. by cbn [orb].
Qed.

Lemma device_record_preserves {X} (f : registry F -> X) (P : string -> Prop) line :
  (forall dev a b c r, P dev -> f (write_device dev a b c r) = f r) ->
  (forall dev, head (Py.split line) = Some dev -> P dev) ->
  preserves f (device_record line).
Proof.
  intros Hf HP r. rewrite device_record_run.
  destruct (Py.split line) as [|dev [|f2 [|f3 [|f4 rest]]]]; try done.
  destruct (float f2); [|done]. destruct (float f3); [|done].
  destruct (float f4); [|done]. cbn. apply Hf, HP. done.
Qed.

Lemma device_loop_preserves {X} (f : registry F -> X) (P : string -> Prop)
    lines flag :
  (forall dev a b c r, P dev -> f (write_device dev a b c r) = f r) ->
  Forall (fun l => forall dev, head (Py.split l) = Some dev -> P dev) lines ->
  preserves f (device_loop lines flag).
Proof.
  intros Hf Hall. revert flag.
  induction Hall as [|l lines Hl _ IH]; intros flag; [apply preserves_ret|].
  cbn [device_loop]. destruct (Py.contains "Device" l); [apply IH|].
  apply preserves_bind; [|intros _; apply IH].
  destruct (_ && _); [|apply preserves_ret].
  by apply (device_record_preserves f P).
Qed.

Lemma device_loop_preserves_all {X} (f : registry F -> X) lines flag :
  (forall dev a b c r, f (write_device dev a b c r) = f r) ->
  preserves f (device_loop lines flag).
Proof.
  intros Hf. apply (device_loop_preserves f (fun _ => True)); [auto|].
  by apply Forall_forall.
Qed.

(** ** The two samplers *)

Lemma iostat_body_run out r :
  iostat_body (Return out) r
  = match cpu_loop (Py.splitlines out) r with
    | (r0, Return _) =>
        match device_loop (Py.splitlines out) false r0 with
        | (r1, Return _) => (r1, Return true)
        | (r1, Raise e) => (r1, Raise e)
        end
    | (r0, Raise e) => (r0, Raise e)
    end.
Proof.
  unfold iostat_body. rewrite bind_run. cbn beta iota. rewrite bind_run.
  destruct (cpu_loop _ r) as [r0 [[]|e]]; [|done]. by rewrite bind_run.
Qed.

Lemma meminfo_loop_cons line rest r :
  meminfo_loop (line :: rest) r
  = match meminfo_line line r with
    | (r1, Return _) => meminfo_loop rest r1
    | (r1, Raise e) => (r1, Raise e)
    end.
Proof. cbn [meminfo_loop]. by rewrite bind_run. Qed.

Lemma meminfo_loop_app pre post r :
  meminfo_loop (pre ++ post) r
  = match meminfo_loop pre r with
    | (r1, Return _) => meminfo_loop post r1
    | (r1, Raise e) => (r1, Raise e)
    end.
Proof.
  revert r. induction pre as [|l pre IH]; intros r; [done|].
  cbn [app]. rewrite !meminfo_loop_cons.
  destruct (meminfo_line l r) as [r1 [[]|e]]; [apply IH | done].
Qed.

Lemma meminfo_body_run lines r :
  meminfo_body (Return lines) r
  = match meminfo_loop lines r with
    | (r', Return _) => (r', Return true)
    | (r', Raise e) => (r', Raise e)
    end.
Proof.
  unfold meminfo_body. rewrite bind_run. cbn beta iota. by rewrite bind_run.
Qed.

Lemma collect_meminfo_run lines r :
  collect_meminfo_metrics (Return lines) r
  = match meminfo_loop lines r with
    | (r', Return _) => (r', true)
    | (r', Raise _) => (r', false)
    end.
Proof.
  unfold collect_meminfo_metrics, catch_all. rewrite meminfo_body_run.
  by destruct (meminfo_loop lines r) as [r' [[]|e]].
Qed.

(** C4.  Neither sampler lets an exception out: each is a total function to
    a registry and a boolean, and the boolean is False exactly when the body
    of the [try] raised.  When the external command, or reading the file,
    raises, the result is False and the registry is the one the call
    started with, so every value set in an earlier cycle is still there. *)
Theorem C4_failure_returns_false_keeps_registry :
  forall (e : exn) (run : outcome string) (read : outcome (list string))
         (r : registry F),
    collect_iostat_metrics (Raise e) r = (r, false)
    /\ collect_meminfo_metrics (Raise e) r = (r, false)
    /\ ((collect_iostat_metrics run r).2 = false
        <-> exists r' e', iostat_body run r = (r', Raise e'))
    /\ ((collect_meminfo_metrics read r).2 = false
        <-> exists r' e', meminfo_body read r = (r', Raise e')).
Proof.
  intros e run read r. split; [done|]. split; [done|].
  unfold collect_iostat_metrics, collect_meminfo_metrics, catch_all.
  split.
  - assert (forall r0 b, iostat_body run r = (r0, Return b) -> b = true) as Hb.
    { intros r0 b. destruct run as [out|e0]; [|done].
      rewrite iostat_body_run.
      destruct (cpu_loop _ r) as [r1 [[]|?]]; [|done].
      destruct (device_loop _ false r1) as [r2 [[]|?]]; [|done].
      by intros [= _ <-]. }
    destruct (iostat_body run r) as [r0 [b|e0]] eqn:E; simpl.
    + rewrite (Hb r0 b eq_refl). split; [done|]. by intros (? & ? & ?).
    + split; eauto.
  - assert (forall r0 b, meminfo_body read r = (r0, Return b) -> b = true) as Hb.
    { intros r0 b. destruct read as [lines|e0]; [|done].
      rewrite meminfo_body_run.
      destruct (meminfo_loop lines r) as [r' [[]|?]]; [|done].
      by intros [= _ <-]. }
    destruct (meminfo_body read r) as [r0 [b|e0]] eqn:E; simpl.
    + rewrite (Hb r0 b eq_refl). split; [done|]. by intros (? & ? & ?).
    + split; eauto.
Qed.

(** C6.  The metric name of a key is "meminfo_", then the lowercased key
    with exactly the characters outside [a-z0-9_] replaced by an underscore
    (letters and digits stay), then "_bytes"; the key Hugepagesize[2] gives
    hugepagesize_2_ inside the name. *)
Theorem C6_metric_name_sanitized :
  forall key : string,
    metric_name key = "meminfo_" +:+ spec_sanitized_key key +:+ "_bytes"
    /\ String.length (sanitized_key key) = String.length (Py.lower key)
    /\ sanitized_key "Hugepagesize[2]" = "hugepagesize_2_"
    /\ metric_name "Hugepagesize[2]" = "meminfo_hugepagesize_2__bytes".
Proof.
  intros key. split; [|split; [|split; reflexivity]].
  - unfold metric_name. by rewrite sanitized_key_spec.
  - unfold sanitized_key. induction (Py.lower key) as [|c s IH]; [done|].
    cbn [Py.sub_non_name String.length]. by rewrite IH.
Qed.

Lemma collect_iostat_run out r :
  collect_iostat_metrics (Return out) r
  = match cpu_loop (Py.splitlines out) r with
    | (r0, Return _) =>
        match device_loop (Py.splitlines out) false r0 with
        | (r1, Return _) => (r1, true)
        | (r1, Raise _) => (r1, false)
        end
    | (r0, Raise _) => (r0, false)
    end.
Proof.
  unfold collect_iostat_metrics, catch_all. rewrite iostat_body_run.
  destruct (cpu_loop _ r) as [r0 [[]|e]]; [|done].
  by destruct (device_loop _ false r0) as [r1 [[]|e]].
Qed.

Lemma collect_iostat_cpu out r :
  cpu_avg_percent (collect_iostat_metrics (Return out) r).1
  = cpu_avg_percent (cpu_loop (Py.splitlines out) r).1.
Proof.
  rewrite collect_iostat_run.
  destruct (cpu_loop _ r) as [r0 [[]|e]]; [|done].
  pose proof (device_loop_preserves_all cpu_avg_percent
                (Py.splitlines out) false (fun _ _ _ _ _ => eq_refl) r0) as H.
  by destruct (device_loop _ false r0) as [r1 [[]|e]].
Qed.


(** One line of the output replaced by another that agrees with it on
    what the loops read. *)
Lemma cpu_loop_replace pre post l1 l2 r :
  Py.contains "%user" l1 = Py.contains "%user" l2 ->
  (forall r0, cpu_data_line l1 r0 = cpu_data_line l2 r0) ->
  cpu_loop (pre ++ l1 :: post) r = cpu_loop (pre ++ l2 :: post) r.
Proof.
  intros Hu Hdata. induction pre as [|l pre IH].
  - cbn [app cpu_loop]. by rewrite Hu.
  - cbn [app cpu_loop].
    destruct (Py.contains "%user" l); cbn [andb]; [|exact IH].
    rewrite !bool_decide_eq_true_2 by (by destruct pre).
    destruct pre as [|l' pre]; cbn [app]; [apply Hdata | done].
Qed.

Lemma device_loop_replace pre post l1 l2 flag r :
  Py.contains "Device" l1 = Py.contains "Device" l2 ->
  (forall r0,
     (if negb (String.eqb (Py.strip l1) "") then device_record l1 else ret tt) r0
     = (if negb (String.eqb (Py.strip l2) "") then device_record l2 else ret tt) r0) ->
  device_loop (pre ++ l1 :: post) flag r
  = device_loop (pre ++ l2 :: post) flag r.
Proof.
  intros Hd Hrec. rewrite !device_loop_app.
  destruct (device_loop pre flag r) as [r1 [[]|e]]; [|done].
  cbn [device_loop]. rewrite Hd.
  destruct (Py.contains "Device" l2); [done|]. rewrite !bind_run.
  destruct (flag || _); cbn [andb]; [|done]. by rewrite Hrec.
Qed.

Lemma device_record_short line r :
  (length (Py.split line) < 4)%nat -> device_record line r = (r, Return tt).
Proof.
  intros H. unfold device_record. by rewrite (proj2 (Nat.leb_gt _ _) H).
Qed.




(** C8.  When no line of the iostat output contains %user, the call leaves
    the CPU gauge as it was; when no line contains Device, it leaves the
    five per-device gauges as they were. *)
Theorem C8_missing_header_leaves_gauges :
  forall (out : string) (r : registry F),
    let r' := (collect_iostat_metrics (Return out) r).1 in
    (Forall (fun l => Py.contains "%user" l = false) (Py.splitlines out) ->
       cpu_avg_percent r' = cpu_avg_percent r)
    /\ (Forall (fun l => Py.contains "Device" l = false) (Py.splitlines out) ->
       io_tps r' = io_tps r
       /\ io_read_rate r' = io_read_rate r
       /\ io_write_rate r' = io_write_rate r
       /\ io_read_bytes r' = io_read_bytes r
       /\ io_write_bytes r' = io_write_bytes r).
Proof.
  intros out r r'. subst r'. split.
  - intros H. by rewrite collect_iostat_cpu, cpu_loop_no_header.
  - intros H. rewrite collect_iostat_run.
    assert (forall X (f : registry F -> X), cpu_free f ->
              f (cpu_loop (Py.splitlines out) r).1 = f r) as Hcpu.
    { intros X f Hf. by apply cpu_loop_preserves. }
    destruct (cpu_loop _ r) as [r0 [[]|e]]; cbn [fst] in Hcpu.
    + rewrite device_loop_no_header by done. cbn [fst].
      repeat split; by apply Hcpu.
    + cbn [fst]. repeat split; by apply Hcpu.
Qed.

(** C1 (amended).  The CPU loop stops at the first line that contains
    %user and has a line after it.  When the line after that first header
    splits into at least six fields of which the first six convert to
    floats, the call leaves the modes user, nice, system, iowait, steal and
    idle of the CPU gauge at fields 1 to 6 of that line, in this order. *)
Theorem C1_cpu_modes_from_first_header :
  forall (out : string) (r : registry F) (pre post : list string)
         (hdr data : string) (f1 f2 f3 f4 f5 f6 : string) (rest : list string)
         (v1 v2 v3 v4 v5 v6 : F),
    Py.splitlines out = pre ++ hdr :: data :: post ->
    Forall (fun l => Py.contains "%user" l = false) pre ->
    Py.contains "%user" hdr = true ->
    Py.split data = f1 :: f2 :: f3 :: f4 :: f5 :: f6 :: rest ->
    float f1 = Some v1 -> float f2 = Some v2 -> float f3 = Some v3 ->
    float f4 = Some v4 -> float f5 = Some v5 -> float f6 = Some v6 ->
    let r' := (collect_iostat_metrics (Return out) r).1 in
    cpu_avg_percent r' !! "user" = Some v1
    /\ cpu_avg_percent r' !! "nice" = Some v2
    /\ cpu_avg_percent r' !! "system" = Some v3
    /\ cpu_avg_percent r' !! "iowait" = Some v4
    /\ cpu_avg_percent r' !! "steal" = Some v5
    /\ cpu_avg_percent r' !! "idle" = Some v6.
Proof.
  intros out r pre post hdr data f1 f2 f3 f4 f5 f6 rest v1 v2 v3 v4 v5 v6
    Hlines Hpre Hhdr Hsplit H1 H2 H3 H4 H5 H6 r'.
  subst r'. rewrite collect_iostat_cpu, Hlines.
  rewrite cpu_loop_skip, cpu_loop_header by done.
  destruct (cpu_data_line_ok data r _ _ _ _ _ _ _ _ _ _ _ _ _
              Hsplit H1 H2 H3 H4 H5 H6) as (r1 & -> & Hr1).
  cbn [fst]. rewrite Hr1. repeat split; by simplify_map_eq.
Qed.

Lemma device_line_ok line post r dev f2 f3 f4 rest tps kr kw :
  Py.contains "Device" line = false ->
  Py.split line = dev :: f2 :: f3 :: f4 :: rest ->
  float f2 = Some tps -> float f3 = Some kr -> float f4 = Some kw ->
  device_loop (line :: post) true r
  = device_loop post true (write_device dev tps kr kw r).
Proof.
  intros Hd Hs H2 H3 H4. cbn [device_loop]. rewrite Hd, bind_run.
  rewrite split_strip by (by rewrite Hs). cbn [andb negb].
  by rewrite device_record_run, Hs, H2, H3, H4.
Qed.

Lemma device_line_raises line post r dev f2 f3 f4 rest :
  Py.contains "Device" line = false ->
  Py.split line = dev :: f2 :: f3 :: f4 :: rest ->
  float f2 = None \/ float f3 = None \/ float f4 = None ->
  device_loop (line :: post) true r = (r, Raise ValueError).
Proof.
  intros Hd Hs Hbad. cbn [device_loop]. rewrite Hd, bind_run.
  rewrite split_strip by (by rewrite Hs). cbn [andb negb].
  rewrite device_record_run, Hs.
  destruct Hbad as [->|[H|H]]; [done|..].
  - rewrite H. by destruct (float f2).
  - rewrite H. by destruct (float f2), (float f3).
Qed.

Lemma existsb_header pre :
  Exists (fun l => Py.contains "Device" l = true) pre ->
  existsb (Py.contains "Device") pre = true.
Proof.
  intros H. apply existsb_exists. apply Exists_exists in H as (l & Hin & Hl).
  exists l. split; [|done]. by apply list_elem_of_In.
Qed.

Lemma device_metrics_write dev tps kr kw r :
  device_metrics dev (write_device dev tps kr kw r)
  = [Some tps; Some kr; Some kw; Some (mul_int kr 1024); Some (mul_int kw 1024)].
Proof. unfold device_metrics. cbn. by rewrite !lookup_insert_eq. Qed.

Lemma device_metrics_write_ne dev dev' tps kr kw r :
  dev' <> dev ->
  device_metrics dev (write_device dev' tps kr kw r) = device_metrics dev r.
Proof. intros H. unfold device_metrics. cbn. by rewrite !lookup_insert_ne. Qed.

(** C2 (amended).  Take a line that does not contain Device, comes after a
    line that does, and splits into at least four fields of which fields 2
    to 4 convert to floats, in a cycle where no conversion raised before the
    device loop reached it.  Right after that line the registry holds, for
    the device named by field 1, tps = field 2, read rate = field 3, write
    rate = field 4 and the two byte rates = fields 3 and 4 times 1024; the
    call goes on with the lines after it, and at its end the five values
    are still these when no later line starts with the same device name.
    With binary64 floats, the output of a header line and the line
    "sda 5.0 100.0 200.0" gives tps 5.0, read rate 100.0, write rate 200.0,
    read bytes 102400.0 and write bytes 204800.0. *)
Theorem C2_device_record_sets_five_metrics :
  forall (out : string) (r r0 r1 : registry F) (pre post : list string)
         (line dev f2 f3 f4 : string) (rest : list string) (tps kr kw : F),
    Py.splitlines out = pre ++ line :: post ->
    Exists (fun l => Py.contains "Device" l = true) pre ->
    Py.contains "Device" line = false ->
    Py.split line = dev :: f2 :: f3 :: f4 :: rest ->
    float f2 = Some tps -> float f3 = Some kr -> float f4 = Some kw ->
    cpu_loop (Py.splitlines out) r = (r0, Return tt) ->
    device_loop pre false r0 = (r1, Return tt) ->
    let values :=
      [Some tps; Some kr; Some kw;
       Some (mul_int kr 1024); Some (mul_int kw 1024)] in
    (exists r2,
       device_loop (pre ++ [line]) false r0 = (r2, Return tt)
       /\ device_metrics dev r2 = values
       /\ (collect_iostat_metrics (Return out) r).1
          = (device_loop post true r2).1
       /\ (Forall (fun l => head (Py.split l) <> Some dev) post ->
           device_metrics dev (collect_iostat_metrics (Return out) r).1
           = values))
    /\ device_metrics "sda"
         (collect_iostat_metrics (FM := Binary64.model)
            (Return Samples.iostat_device_only) empty_registry).1
       = [Some 5%float; Some 100%float; Some 200%float;
          Some 102400%float; Some 204800%float].
Proof.
  intros out r r0 r1 pre post line dev f2 f3 f4 rest tps kr kw
    Hlines Hhdr Hd Hs H2 H3 H4 Hcpu Hpre values.
  split; [|by vm_compute].
  exists (write_device dev tps kr kw r1).
  assert (device_loop (pre ++ [line]) false r0
          = (write_device dev tps kr kw r1, Return tt)) as Hafter.
  { rewrite device_loop_app, Hpre, existsb_header by done. cbn [orb].
    by rewrite (device_line_ok line [] r1 dev f2 f3 f4 rest tps kr kw). }
  assert ((collect_iostat_metrics (Return out) r).1
          = (device_loop post true (write_device dev tps kr kw r1)).1) as Hrun.
  { rewrite collect_iostat_run, Hcpu, Hlines.
    rewrite device_loop_app, Hpre, existsb_header by done. cbn [orb].
    rewrite (device_line_ok line post r1 dev f2 f3 f4 rest tps kr kw) by done.
    by destruct (device_loop post true _) as [r3 [[]|e]]. }
  split; [done|]. split; [apply device_metrics_write|]. split; [done|].
  intros Hpost. rewrite Hrun.
  rewrite (device_loop_preserves (device_metrics dev) (fun x => x <> dev)
             post true).
  - apply device_metrics_write.
  - intros. by apply device_metrics_write_ne.
  - eapply Forall_impl; [exact Hpost|]. intros l Hl x Hx ->. by apply Hl.
Qed.

(** C10 (amended).  Take a line that does not itself contain Device, comes
    after a line that does, and splits into at least four fields of which
    field 2, 3 or 4 does not convert to a float.  Then the call returns
    False; and when nothing raised before the device loop reached that
    line, the registry at the end is the one the loop had reached just
    before it: that line and the lines after it write nothing, and what
    earlier lines wrote in this cycle stays. *)
Theorem C10_bad_device_field_returns_false :
  forall (out : string) (r : registry F) (pre post : list string)
         (line dev f2 f3 f4 : string) (rest : list string),
    Py.splitlines out = pre ++ line :: post ->
    Exists (fun l => Py.contains "Device" l = true) pre ->
    Py.contains "Device" line = false ->
    Py.split line = dev :: f2 :: f3 :: f4 :: rest ->
    float f2 = None \/ float f3 = None \/ float f4 = None ->
    (collect_iostat_metrics (Return out) r).2 = false
    /\ forall r0 r1 : registry F,
         cpu_loop (Py.splitlines out) r = (r0, Return tt) ->
         device_loop pre false r0 = (r1, Return tt) ->
         collect_iostat_metrics (Return out) r = (r1, false).
Proof.
  intros out r pre post line dev f2 f3 f4 rest Hlines Hhdr Hd Hs Hbad.
  assert (forall r0 r1,
            device_loop pre false r0 = (r1, Return tt) ->
            device_loop (Py.splitlines out) false r0 = (r1, Raise ValueError))
    as Hloop.
  { intros r0 r1 Hpre. rewrite Hlines, device_loop_app, Hpre.
    rewrite existsb_header by done. cbn [orb].
    by apply (device_line_raises line post r1 dev f2 f3 f4 rest). }
  split.
  - rewrite collect_iostat_run.
    destruct (cpu_loop _ r) as [r0 [[]|e]]; [|done].
    destruct (device_loop pre false r0) as [r1 [[]|e]] eqn:Hpre.
    + by rewrite (Hloop r0 r1 Hpre).
    + by rewrite Hlines, device_loop_app, Hpre.
  - intros r0 r1 Hcpu Hpre.
    by rewrite collect_iostat_run, Hcpu, (Hloop r0 r1 Hpre).
Qed.

(** ** The memory sampler, line by line *)


Lemma meminfo_entry_digits line key v :
  meminfo_entry line = Some (key, v) ->
  exists digits, meminfo_digits line = Some digits.
Proof.
  unfold meminfo_entry, meminfo_digits.
  destruct (Py.contains ":" line); [|done].
  destruct (Py.split1 ":" line) as [|? [|? [|]]]; try done.
  destruct (Py.search_digits _); [eauto | done].
Qed.

Lemma meminfo_line_ok line key v x r :
  meminfo_entry line = Some (key, v) ->
  float_of_int v = Some x ->
  meminfo_line line r
  = (with_meminfo_gauges (upsert key (Some x) (meminfo_gauges r)) r, Return tt).
Proof.
  intros He Hx. destruct (meminfo_entry_digits _ _ _ He) as [digits Hd].
  rewrite meminfo_line_run, Hd, He. unfold meminfo_line_outcome.
  by rewrite Hx.
Qed.

Lemma meminfo_line_sets line key v x r :
  meminfo_entry line = Some (key, v) ->
  float_of_int v = Some x ->
  meminfo_gauges (meminfo_line line r).1 !! metric_name key
  = Some {| documentation :=
              match meminfo_gauges r !! metric_name key with
              | Some g => documentation g
              | None => "Memory information: " +:+ key
              end;
            value := x |}.
Proof.
  intros He Hx. rewrite (meminfo_line_ok line key v x) by done. cbn.
  unfold upsert. by rewrite lookup_insert_eq.
Qed.

Lemma meminfo_line_other line name r :
  (forall k v, meminfo_entry line = Some (k, v) -> metric_name k <> name) ->
  meminfo_gauges (meminfo_line line r).1 !! name = meminfo_gauges r !! name.
Proof.
  intros H. rewrite meminfo_line_registry.
  destruct (meminfo_entry line) as [[k v]|]; [|done]. cbn. unfold upsert.
  rewrite lookup_insert_ne; [done|]. by eapply H.
Qed.

Lemma meminfo_loop_other lines name r :
  Forall (fun l => forall k v,
            meminfo_entry l = Some (k, v) -> metric_name k <> name) lines ->
  meminfo_gauges (meminfo_loop lines r).1 !! name = meminfo_gauges r !! name.
Proof.
  intros H. revert r. induction H as [|l lines Hl _ IH]; intros r; [done|].
  rewrite meminfo_loop_cons.
  pose proof (meminfo_line_other l name r Hl) as Hline.
  destruct (meminfo_line l r) as [r1 [[]|e]]; cbn [fst] in *; [|done].
  by rewrite IH.
Qed.


Lemma string_length_app (a b : string) :
  String.length (a +:+ b) = (String.length a + String.length b)%nat.
Proof.
  induction a as [|c a IH]; [done|].
  change (S (String.length (a +:+ b)) = S (String.length a + String.length b)).
  by rewrite IH.
Qed.

Lemma string_app_inj_r (a b s : string) : a +:+ s = b +:+ s -> a = b.
Proof.
  intros H.
  assert (String.length a = String.length b) as Hlen.
  { apply (f_equal String.length) in H.
    rewrite !string_length_app in H. lia. }
  revert b H Hlen. induction a as [|c a IH]; intros [|c' b]; try done.
  change (String c (a +:+ s) = String c' (b +:+ s) ->
          S (String.length a) = S (String.length b) -> String c a = String c' b).
  intros [= -> H] [= Hlen]. f_equal. by apply IH.
Qed.

Lemma metric_name_spec key :
  metric_name key = "meminfo_" +:+ spec_sanitized_key key +:+ "_bytes".
Proof. unfold metric_name. by rewrite sanitized_key_spec. Qed.


(** C9 (amended).  When two lines of one file have the same sanitized key
    (the lowercased key with every character outside [a-z0-9_] replaced),
    they have the same metric name; and when nothing raised up to the
    second line, its value has a float, and no line after it has that
    sanitized key too, the metric ends the cycle at the float of the value
    parsed from the second, the last such line in file order. *)
Theorem C9_duplicate_key_last_line_wins :
  forall (pre mid post : list string) (l1 l2 k1 k2 : string) (v1 v2 : Z)
         (x2 : F) (r before : registry F),
    meminfo_entry l1 = Some (k1, v1) ->
    meminfo_entry l2 = Some (k2, v2) ->
    spec_sanitized_key k1 = spec_sanitized_key k2 ->
    Forall (fun l => forall k v,
              meminfo_entry l = Some (k, v) ->
              spec_sanitized_key k <> spec_sanitized_key k2) post ->
    meminfo_loop (pre ++ l1 :: mid) r = (before, Return tt) ->
    float_of_int v2 = Some x2 ->
    let r' :=
      (collect_meminfo_metrics
         (Return (pre ++ l1 :: mid ++ l2 :: post)) r).1 in
    metric_name k1 = "meminfo_" +:+ spec_sanitized_key k2 +:+ "_bytes"
    /\ metric_name k2 = "meminfo_" +:+ spec_sanitized_key k2 +:+ "_bytes"
    /\ value <$> meminfo_gauges r' !! metric_name k2 = Some x2.
Proof.
  intros pre mid post l1 l2 k1 k2 v1 v2 x2 r before H1 H2 Hk Hpost Hbefore Hx
    r'. subst r'.
  split; [by rewrite metric_name_spec, Hk|].
  split; [apply metric_name_spec|].
  assert (meminfo_loop (pre ++ l1 :: mid ++ l2 :: post) r
          = meminfo_loop post (meminfo_line l2 before).1) as Hloop.
  { change (pre ++ l1 :: mid ++ l2 :: post)
      with (pre ++ (l1 :: mid) ++ l2 :: post).
    rewrite (assoc_L (++)), meminfo_loop_app, Hbefore, meminfo_loop_cons.
    by rewrite (meminfo_line_ok l2 k2 v2 x2). }
  rewrite collect_meminfo_run, Hloop.
  assert (value <$> meminfo_gauges
                      (meminfo_loop post (meminfo_line l2 before).1).1
                    !! metric_name k2 = Some x2) as Hend.
  { rewrite meminfo_loop_other; [by rewrite (meminfo_line_sets l2 k2 v2 x2)|].
    eapply Forall_impl; [exact Hpost|]. intros l Hl k v Hkv Hname.
    apply (Hl k v Hkv). rewrite !metric_name_spec in Hname.
    apply (inj (String.app "meminfo_")) in Hname.
    by apply string_app_inj_r in Hname. }
  by destruct (meminfo_loop post _) as [r' [[]|e]].
Qed.

End Properties.

(** * Further properties of the samplers and of the main loop *)

Section Further.

Context {F : Type} {FM : FloatModel F}.

Implicit Types (r : registry F) (d : writes F) (line : string)
  (lines : list string).

#[local] Abbreviation blind := (@blind F _).

(** ** Each sampler keeps to its own gauges *)

Lemma meminfo_loop_preserves {X} (f : registry F -> X) lines :
  (forall g r, f (with_meminfo_gauges g r) = f r) ->
  preserves f (meminfo_loop lines).
Proof.
  intros Hf. induction lines as [|l lines IH]; intros r; [done|].
  rewrite meminfo_loop_cons.
  assert (f (meminfo_line l r).1 = f r) as Hline.
  { rewrite meminfo_line_registry. by destruct (meminfo_entry l) as [[k v]|]. }
  destruct (meminfo_line l r) as [r1 [[]|e]]; cbn [fst] in *; [|done].
  by rewrite IH.
Qed.

Lemma cpu_free_meminfo_gauges : cpu_free (@meminfo_gauges F).
Proof. by split. Qed.

Lemma cpu_free_device_metrics dev : cpu_free (@device_metrics F dev).
Proof. by split. Qed.

Lemma collect_iostat_meminfo run r :
  meminfo_gauges (collect_iostat_metrics run r).1 = meminfo_gauges r.
Proof.
  destruct run as [out|e]; [|done]. rewrite collect_iostat_run.
  pose proof (cpu_loop_preserves meminfo_gauges (Py.splitlines out)
                cpu_free_meminfo_gauges r) as Hcpu.
  destruct (cpu_loop _ r) as [r0 [[]|e]]; cbn [fst] in *; [|done].
  pose proof (device_loop_preserves_all meminfo_gauges (Py.splitlines out)
                false (fun _ _ _ _ _ => eq_refl) r0) as Hdev.
  by destruct (device_loop _ false r0) as [r1 [[]|e]]; cbn [fst] in *;
    rewrite Hdev.
Qed.

Lemma collect_meminfo_preserves {X} (f : registry F -> X) read r :
  (forall g r, f (with_meminfo_gauges g r) = f r) ->
  f (collect_meminfo_metrics read r).1 = f r.
Proof.
  intros Hf. destruct read as [lines|e]; [|done].
  rewrite collect_meminfo_run.
  pose proof (meminfo_loop_preserves f lines Hf r) as Hloop.
  by destruct (meminfo_loop lines r) as [r' [[]|e]].
Qed.

(** X1.  The disk sampler never changes the dictionary of memory gauges,
    whatever iostat printed and whether or not the call failed; the memory
    sampler never changes any of the six labelled gauges. *)
Theorem X1_samplers_keep_to_their_gauges :
  forall (run : outcome string) (read : outcome (list string)) (r : registry F),
    meminfo_gauges (collect_iostat_metrics run r).1 = meminfo_gauges r
    /\ let r' := (collect_meminfo_metrics read r).1 in
       io_read_rate r' = io_read_rate r
       /\ io_write_rate r' = io_write_rate r
       /\ io_tps r' = io_tps r
       /\ io_read_bytes r' = io_read_bytes r
       /\ io_write_bytes r' = io_write_bytes r
       /\ cpu_avg_percent r' = cpu_avg_percent r.
Proof.
  intros run read r. split; [apply collect_iostat_meminfo|].
  repeat split; by apply collect_meminfo_preserves.
Qed.

(** ** A sampler as an overlay *)

Lemma catch_all_overlay (body : M F bool) :
  blind body -> exists d b, forall r, catch_all body r = (overlay d r, b).
Proof.
  intros (d & [b|e] & Hb); [exists d, b | exists d, false];
    intros r; unfold catch_all; by rewrite (Hb r).
Qed.

Lemma collect_iostat_overlay run :
  exists d b, forall r, collect_iostat_metrics run r = (overlay d r, b).
Proof. apply catch_all_overlay, blind_iostat_body. Qed.

Lemma collect_meminfo_overlay read :
  exists d b, forall r, collect_meminfo_metrics read r = (overlay d r, b).
Proof. apply catch_all_overlay, blind_meminfo_body. Qed.

(** Writes that leave each other's gauges alone can be laid in either
    order. *)
Lemma overlay_commute di dm r :
  (forall r, meminfo_gauges (overlay di r) = meminfo_gauges r) ->
  (forall r, io_read_rate (overlay dm r) = io_read_rate r) ->
  (forall r, io_write_rate (overlay dm r) = io_write_rate r) ->
  (forall r, io_tps (overlay dm r) = io_tps r) ->
  (forall r, io_read_bytes (overlay dm r) = io_read_bytes r) ->
  (forall r, io_write_bytes (overlay dm r) = io_write_bytes r) ->
  (forall r, cpu_avg_percent (overlay dm r) = cpu_avg_percent r) ->
  overlay dm (overlay di r) = overlay di (overlay dm r).
Proof.
  intros Hi H1 H2 H3 H4 H5 H6.
  apply registry_eq;
    [ pose proof (H1 (overlay di r)) as E1; pose proof (H1 r) as E2
    | pose proof (H2 (overlay di r)) as E1; pose proof (H2 r) as E2
    | pose proof (H3 (overlay di r)) as E1; pose proof (H3 r) as E2
    | pose proof (H4 (overlay di r)) as E1; pose proof (H4 r) as E2
    | pose proof (H5 (overlay di r)) as E1; pose proof (H5 r) as E2
    | pose proof (H6 (overlay di r)) as E1; pose proof (H6 r) as E2
    | pose proof (Hi (overlay dm r)) as E1; pose proof (Hi r) as E2 ];
    cbn in E1, E2 |- *; by rewrite E1, E2.
Qed.

(** X2.  The two samplers do not interfere: calling them in either order
    with the same answers gives the same registry, and each returns the
    boolean it returns on its own. *)
Theorem X2_samplers_commute :
  forall (run : outcome string) (read : outcome (list string)) (r : registry F),
    let iostat_first :=
      collect_meminfo_metrics read (collect_iostat_metrics run r).1 in
    let meminfo_first :=
      collect_iostat_metrics run (collect_meminfo_metrics read r).1 in
    iostat_first.1 = meminfo_first.1
    /\ iostat_first.2 = (collect_meminfo_metrics read r).2
    /\ meminfo_first.2 = (collect_iostat_metrics run r).2.
Proof.
  intros run read r iostat_first meminfo_first.
  subst iostat_first meminfo_first.
  destruct (collect_iostat_overlay run) as (di & bi & Hi).
  destruct (collect_meminfo_overlay read) as (dm & bm & Hm).
  assert (forall X (f : registry F -> X),
            (forall g r0, f (with_meminfo_gauges g r0) = f r0) ->
            forall r0, f (overlay dm r0) = f r0) as Hframe.
  { intros X f Hf r0.
    pose proof (collect_meminfo_preserves f read r0 Hf) as H.
    by rewrite Hm in H. }
  rewrite !Hi, !Hm. cbn [fst snd]. split; [|done].
  apply overlay_commute; try (by apply Hframe).
  intros r0. pose proof (collect_iostat_meminfo run r0) as H.
  by rewrite Hi in H.
Qed.

(** ** The main loop *)

Lemma cycle_overlay run read :
  exists d, forall r, cycle run read r = overlay d r.
Proof.
  destruct (collect_iostat_overlay run) as (di & bi & Hi).
  destruct (collect_meminfo_overlay read) as (dm & bm & Hm).
  exists (then_all dm di). intros r. unfold cycle. cbv zeta.
  rewrite Hi, Hm. cbn [fst]. by rewrite overlay_then.
Qed.

Lemma cycle_twice run read r :
  cycle run read (cycle run read r) = cycle run read r.
Proof.
  destruct (cycle_overlay run read) as [d Hd].
  by rewrite !Hd, overlay_absorb.
Qed.

(** X3.  Polling sources that do not change is the same as polling them
    once: after any number of iterations with the same answers the registry
    is the one the first iteration left. *)
Theorem X3_main_loop_same_answers :
  forall (run : outcome string) (read : outcome (list string)) (n : nat)
         (r : registry F),
    main_loop (replicate (S n) (run, read)) r = cycle run read r.
Proof.
  intros run read n r. induction n as [|n IH]; [done|].
  change (main_loop (replicate (S n) (run, read)) (cycle run read r)
          = cycle run read r).
  cbn [replicate main_loop] in *. rewrite <- IH at 2.
  clear IH. revert r. induction n as [|n IH]; intros r; cbn [replicate main_loop].
  - apply cycle_twice.
  - by rewrite cycle_twice.
Qed.

(** ** Nothing is ever removed *)

Lemma grows_refl r : grows r r.
Proof. unfold grows. repeat split; try done. intros name g H. by exists g. Qed.

Lemma grows_trans r1 r2 r3 : grows r1 r2 -> grows r2 r3 -> grows r1 r3.
Proof.
  unfold grows. intros (A1 & A2 & A3 & A4 & A5 & A6 & A7)
    (B1 & B2 & B3 & B4 & B5 & B6 & B7).
  repeat split; try (etrans; eassumption).
  intros name g H. destruct (A7 name g H) as (g' & H' & Hd).
  destruct (B7 name g' H') as (g'' & H'' & Hd'). exists g''. split; [done|].
  congruence.
Qed.

Lemma dom_apply_writes {D V} (app : D -> option V -> V)
    (w : gmap string D) (g : gmap string V) :
  dom g ⊆ dom (apply_writes app w g).
Proof.
  intros i. rewrite !elem_of_dom. intros [v Hv].
  by apply (apply_writes_keeps app w g i v).
Qed.

Lemma grows_overlay d r : grows r (overlay d r).
Proof.
  unfold grows, overlay. cbn.
  repeat split; try apply dom_apply_writes.
  intros name g H. rewrite lookup_apply_writes, H.
  destruct (w_meminfo_gauges d !! name) as [w|]; cbn; eauto.
Qed.

Lemma grows_cycle run read r : grows r (cycle run read r).
Proof.
  destruct (cycle_overlay run read) as [d Hd]. rewrite Hd.
  apply grows_overlay.
Qed.

(** X4.  Nothing is ever removed from the registry: after a call of either
    sampler, and after any number of iterations of the main loop, every
    device and mode that had a value still has one, and every memory gauge
    is still registered with the documentation it was created with. *)
Theorem X4_registry_only_grows :
  forall (run : outcome string) (read : outcome (list string))
         (answers : list (outcome string * outcome (list string)))
         (r : registry F),
    grows r (collect_iostat_metrics run r).1
    /\ grows r (collect_meminfo_metrics read r).1
    /\ grows r (main_loop answers r).
Proof.
  intros run read answers r. split; [|split].
  - destruct (collect_iostat_overlay run) as (d & b & ->).
    apply grows_overlay.
  - destruct (collect_meminfo_overlay read) as (d & b & ->).
    apply grows_overlay.
  - revert r. induction answers as [|[run' read'] rest IH]; intros r.
    + apply grows_refl.
    + cbn [main_loop]. eapply grows_trans; [apply grows_cycle | apply IH].
Qed.

(** ** What a cycle does not mention keeps its value *)

(** X5.  A device that no line of the iostat output starts with keeps its
    five values through the call, whether the call succeeds or not. *)
Theorem X5_unreported_device_keeps_values :
  forall (out : string) (dev : string) (r : registry F),
    Forall (fun l => head (Py.split l) <> Some dev) (Py.splitlines out) ->
    device_metrics dev (collect_iostat_metrics (Return out) r).1
    = device_metrics dev r.
Proof.
  intros out dev r Hall. rewrite collect_iostat_run.
  pose proof (cpu_loop_preserves (device_metrics dev) (Py.splitlines out)
                (cpu_free_device_metrics dev) r) as Hcpu.
  destruct (cpu_loop _ r) as [r0 [[]|e]]; cbn [fst] in *; [|done].
  assert (device_metrics dev (device_loop (Py.splitlines out) false r0).1
          = device_metrics dev r0) as Hdev.
  { apply (device_loop_preserves (device_metrics dev) (fun x => x <> dev)).
    - intros. by apply device_metrics_write_ne.
    - eapply Forall_impl; [exact Hall|]. intros l Hl x Hx ->. by apply Hl. }
  destruct (device_loop _ false r0) as [r1 [[]|e]]; cbn [fst] in *; congruence.
Qed.

(** X6.  A memory gauge whose name no line of the file maps to keeps its
    value and documentation through the call. *)
Theorem X6_unreported_key_keeps_gauge :
  forall (lines : list string) (name : string) (r : registry F),
    Forall (fun l => forall k v,
              meminfo_entry l = Some (k, v) -> metric_name k <> name) lines ->
    meminfo_gauges (collect_meminfo_metrics (Return lines) r).1 !! name
    = meminfo_gauges r !! name.
Proof.
  intros lines name r Hall. rewrite collect_meminfo_run.
  pose proof (meminfo_loop_other lines name r Hall) as Hloop.
  by destruct (meminfo_loop lines r) as [r' [[]|e]].
Qed.

(** ** A CPU field that is no number *)

Lemma cpu_data_line_fails data r fields k fk vs mode :
  Py.split data = fields ->
  (6 <= length fields)%nat ->
  cpu_modes !! k = Some mode ->
  Forall2 (fun f v => float f = Some v) (take k fields) vs ->
  fields !! k = Some fk -> float fk = None ->
  exists r',
    cpu_data_line data r = (r', Raise ValueError)
    /\ cpu_avg_percent r'
       = child mode (set_all (zip (take k cpu_modes) vs) (cpu_avg_percent r)).
Proof.
  intros Hs Hlen Hk Hvs Hfk Hbad. unfold cpu_data_line. rewrite Hs.
  destruct fields as [|f1 [|f2 [|f3 [|f4 [|f5 [|f6 rest]]]]]];
    cbn [length] in Hlen; try lia.
  cbn [length Nat.leb].
  do 6 (destruct k as [|k];
        [ cbn in Hvs, Hfk, Hk; injection Hfk as ->; injection Hk as <-;
          repeat match goal with
            | H : Forall2 _ (_ :: _) _ |- _ =>
                apply Forall2_cons_inv_l in H as (? & ? & ? & ? & ->)
            | H : Forall2 _ [] _ |- _ => apply Forall2_nil_inv_l in H as ->
            end;
          repeat (rewrite bind_run, set_cpu_mode_run; cbn [lookup list_lookup];
                  match goal with
                  | H : float _ = Some _ |- _ => rewrite H; clear H
                  end; cbn [set_cpu_avg_percent]);
          rewrite ?bind_run, set_cpu_mode_run; cbn [lookup list_lookup];
          rewrite Hbad; eexists; split; reflexivity
        | ]).
  done.
Qed.

Lemma lookup_set_all kvs mode (g : gmap string F) :
  mode ∉ kvs.*1 -> set_all kvs g !! mode = g !! mode.
Proof.
  revert g. induction kvs as [|[k v] kvs IH]; intros g Hm; [done|].
  cbn [set_all foldl]. apply not_elem_of_cons in Hm as [Hne Hm].
  change (set_all kvs (<[k := v]> g) !! mode = g !! mode).
  rewrite IH by done. by rewrite lookup_insert_ne.
Qed.

(** X7.  When one of the first six fields of the CPU data line does not
    convert to a float, the call returns False and the device loop never
    runs, so the five device gauges keep their values even when the device
    section is well formed.  The modes before the bad field have been set,
    in order; the mode of the bad field has been looked up before the
    conversion, so it is there with the value it had, or with 0.0 when
    it had none; the modes after it keep what they had. *)
Theorem X7_cpu_field_failure :
  forall (out : string) (r : registry F) (pre post : list string)
         (hdr data fk mode : string) (fields : list string) (k : nat)
         (vs : list F),
    Py.splitlines out = pre ++ hdr :: data :: post ->
    Forall (fun l => Py.contains "%user" l = false) pre ->
    Py.contains "%user" hdr = true ->
    Py.split data = fields ->
    (6 <= length fields)%nat ->
    cpu_modes !! k = Some mode ->
    Forall2 (fun f v => float f = Some v) (take k fields) vs ->
    fields !! k = Some fk -> float fk = None ->
    let result := collect_iostat_metrics (Return out) r in
    result.2 = false
    /\ cpu_avg_percent result.1
       = child mode (set_all (zip (take k cpu_modes) vs) (cpu_avg_percent r))
    /\ cpu_avg_percent result.1 !! mode
       = Some (default float_zero (cpu_avg_percent r !! mode))
    /\ io_tps result.1 = io_tps r
    /\ io_read_rate result.1 = io_read_rate r
    /\ io_write_rate result.1 = io_write_rate r
    /\ io_read_bytes result.1 = io_read_bytes r
    /\ io_write_bytes result.1 = io_write_bytes r.
Proof.
  intros out r pre post hdr data fk mode fields k vs
    Hlines Hpre Hhdr Hs Hlen Hk Hvs Hfk Hbad result.
  subst result. rewrite collect_iostat_run, Hlines.
  rewrite cpu_loop_skip, cpu_loop_header by done.
  assert (forall X (f : registry F -> X), cpu_free f ->
            f (cpu_data_line data r).1 = f r) as Hframe.
  { intros X f Hf. by apply cpu_data_line_preserves. }
  destruct (cpu_data_line_fails data r fields k fk vs mode
              Hs Hlen Hk Hvs Hfk Hbad) as (r' & Hrun & Hcpu).
  rewrite Hrun in *. cbn [fst snd] in *.
  split; [done|]. split; [done|]. split; [|repeat split; by apply Hframe].
  rewrite Hcpu.
  assert (set_all (zip (take k cpu_modes) vs) (cpu_avg_percent r) !! mode
          = cpu_avg_percent r !! mode) as Hold.
  { apply lookup_set_all. intros Hin.
    apply list_elem_of_fmap in Hin as ([m v] & -> & Hin).
    apply elem_of_zip_l in Hin. clear -Hk Hin.
    do 6 (destruct k as [|k];
          [ injection Hk as <-; cbn in Hin;
            rewrite ?elem_of_cons, elem_of_nil in Hin;
            decompose [or] Hin; done | ]).
    done. }
  unfold child. destruct (set_all _ _ !! mode) as [x|] eqn:E.
  - by rewrite E, <- Hold.
  - by rewrite lookup_insert_eq, <- Hold.
Qed.

(** ** The device gauges agree with each other *)

Lemma io_consistent_ext r r' :
  io_read_rate r' = io_read_rate r -> io_write_rate r' = io_write_rate r ->
  io_tps r' = io_tps r -> io_read_bytes r' = io_read_bytes r ->
  io_write_bytes r' = io_write_bytes r ->
  io_consistent r -> io_consistent r'.
Proof. unfold io_consistent. by intros -> -> -> -> ->. Qed.

Lemma io_consistent_empty : io_consistent (@empty_registry F).
Proof. intros dev. cbn. by rewrite !lookup_empty. Qed.

Lemma io_consistent_write dev tps kr kw r :
  io_consistent r -> io_consistent (write_device dev tps kr kw r).
Proof.
  intros H dev'. specialize (H dev'). cbn.
  destruct (decide (dev = dev')) as [->|Hne].
  - rewrite !lookup_insert_eq. cbn. by repeat split.
  - by rewrite !lookup_insert_ne.
Qed.

Lemma io_consistent_device_loop lines flag r :
  io_consistent r -> io_consistent (device_loop lines flag r).1.
Proof.
  revert flag r. induction lines as [|l lines IH]; intros flag r Hr; [done|].
  cbn [device_loop]. destruct (Py.contains "Device" l); [by apply IH|].
  rewrite bind_run. destruct (flag && _); [|by apply IH].
  rewrite device_record_run.
  destruct (Py.split l) as [|dev [|f2 [|f3 [|f4 rest]]]]; try by apply IH.
  destruct (float f2); [|done]. destruct (float f3); [|done].
  destruct (float f4); [|done]. by apply IH, io_consistent_write.
Qed.

Lemma io_consistent_iostat run r :
  io_consistent r -> io_consistent (collect_iostat_metrics run r).1.
Proof.
  intros Hr. destruct run as [out|e]; [|done]. rewrite collect_iostat_run.
  assert (io_consistent (cpu_loop (Py.splitlines out) r).1) as Hcpu.
  { apply (io_consistent_ext r); [..|done];
      by apply cpu_loop_preserves. }
  destruct (cpu_loop _ r) as [r0 [[]|e]]; cbn [fst] in *; [|done].
  pose proof (io_consistent_device_loop (Py.splitlines out) false r0 Hcpu).
  by destruct (device_loop _ false r0) as [r1 [[]|e]].
Qed.

Lemma io_consistent_meminfo read r :
  io_consistent r -> io_consistent (collect_meminfo_metrics read r).1.
Proof.
  apply io_consistent_ext; by apply collect_meminfo_preserves.
Qed.

(** X8.  From the start of the program on, after every iteration of the
    main loop and whatever the sources answered, the five device gauges
    have the same devices, and for each device the bytes read and written
    are the KB read and written times 1024; a call that fails half way
    does not break this. *)
Theorem X8_device_gauges_consistent :
  forall (run : outcome string)
         (answers : list (outcome string * outcome (list string))),
    io_consistent (main_loop answers (@empty_registry F))
    /\ io_consistent
         (collect_iostat_metrics run (main_loop answers (@empty_registry F))).1.
Proof.
  intros run answers.
  assert (forall r, io_consistent r -> io_consistent (main_loop answers r))
    as Hloop.
  { induction answers as [|[run' read'] rest IH]; intros r Hr; [done|].
    cbn [main_loop]. apply IH. unfold cycle.
    by apply io_consistent_meminfo, io_consistent_iostat. }
  split; [|apply io_consistent_iostat]; apply Hloop, io_consistent_empty.
Qed.

End Further.

(** ** Keys, names and values of the memory gauges *)

Lemma isdigit_value (c : ascii) : Py.isdigit c = true -> 0 <= Py.digit_value c.
Proof.
  unfold Py.isdigit, Py.digit_value. intros H.
  apply andb_true_iff in H as [H _]. apply N.leb_le in H. lia.
Qed.

Lemma int_go_nonneg (s : string) (acc n : Z) :
  0 <= acc -> Py.int_go acc s = Some n -> 0 <= n.
Proof.
  revert acc. induction s as [|c s IH]; intros acc Hacc; cbn [Py.int_go].
  - by intros [= <-].
  - destruct (Py.isdigit c) eqn:E; [|done]. apply IH.
    pose proof (isdigit_value c E). lia.
Qed.

Lemma int_nonneg (s : string) (n : Z) : Py.int s = Some n -> 0 <= n.
Proof. destruct s; [done|]. by apply int_go_nonneg. Qed.

Lemma meminfo_entry_value {F} {FM : FloatModel F} (line key : string) (v : Z) :
  meminfo_entry line = Some (key, v) -> exists n, 0 <= n /\ v = n * 1024.
Proof.
  unfold meminfo_entry, Py.int_limit. destruct (Py.contains ":" line); [|done].
  destruct (Py.split1 ":" line) as [|a [|b [|]]]; try done.
  destruct (Py.search_digits _); [|done].
  destruct (Py.exceeds _ _); [done|].
  destruct (Py.int _) as [n|] eqn:E; [|done].
  intros [= _ <-]. exists n. split; [by eapply int_nonneg|done].
Qed.

Lemma string_forallb_app (p : ascii -> bool) (a b : string) :
  string_forallb p (a +:+ b) = string_forallb p a && string_forallb p b.
Proof.
  induction a as [|c a IH]; [done|].
  change (p c && string_forallb p (a +:+ b)
          = p c && string_forallb p a && string_forallb p b).
  by rewrite IH, andb_assoc.
Qed.

Lemma sanitized_key_chars (key : string) :
  string_forallb in_lower_name_class (sanitized_key key) = true.
Proof.
  unfold sanitized_key. induction key as [|c key IH]; [done|].
  cbn [Py.lower Py.sub_non_name string_forallb]. rewrite IH, andb_true_r.
  destruct (Py.in_name_class (Py.lower_char c)) eqn:E; [|done].
  by rewrite <- lower_char_not_upper.
Qed.

Lemma metric_name_chars (key : string) :
  string_forallb in_lower_name_class (metric_name key) = true.
Proof.
  unfold metric_name. by rewrite !string_forallb_app, sanitized_key_chars.
Qed.

Lemma lower_char_idemp (c : ascii) :
  Py.lower_char (Py.lower_char c) = Py.lower_char c.
Proof. destruct c as [[] [] [] [] [] [] [] []]; reflexivity. Qed.

Lemma lower_idemp (s : string) : Py.lower (Py.lower s) = Py.lower s.
Proof.
  induction s as [|c s IH]; [done|]. cbn [Py.lower].
  by rewrite lower_char_idemp, IH.
Qed.

Lemma lower_name_char (c : ascii) :
  in_lower_name_class c = true ->
  Py.lower_char c = c /\ Py.in_name_class c = true.
Proof. destruct c as [[] [] [] [] [] [] [] []]; by intros. Qed.

Lemma sanitized_key_fixed (s : string) :
  string_forallb in_lower_name_class s = true -> sanitized_key s = s.
Proof.
  unfold sanitized_key. induction s as [|c s IH]; [done|].
  cbn [string_forallb Py.lower Py.sub_non_name].
  intros [Hc Hs]%andb_true_iff. destruct (lower_name_char c Hc) as [-> ->].
  by rewrite IH.
Qed.

(** X11.  The name of a metric does not see the case of the key nor which
    punctuation it has: a key, the key in lower case and the key already
    sanitized all have the same metric name, so such keys share one gauge. *)
Theorem X11_metric_name_collisions :
  forall key : string,
    metric_name (Py.lower key) = metric_name key
    /\ metric_name (sanitized_key key) = metric_name key.
Proof.
  intros key. unfold metric_name. split.
  - unfold sanitized_key. by rewrite lower_idemp.
  - by rewrite (sanitized_key_fixed _ (sanitized_key_chars key)).
Qed.

Section Memory.

Context {F : Type} {FM : FloatModel F}.

Implicit Types (r : registry F) (line : string) (lines : list string).

Lemma meminfo_values_ok_line line r :
  meminfo_values_ok r -> meminfo_values_ok (meminfo_line line r).1.
Proof.
  intros Hr. rewrite meminfo_line_registry.
  destruct (meminfo_entry line) as [[key v]|] eqn:E; [|done].
  intros name g. cbn. unfold upsert.
  destruct (decide (metric_name key = name)) as [<-|Hne].
  - rewrite lookup_insert_eq. intros [= <-]. cbn.
    destruct (float_of_int v) as [x|] eqn:Hx; cbn.
    + right. destruct (meminfo_entry_value _ _ _ E) as (n & Hn & ->). eauto.
    + destruct (meminfo_gauges r !! metric_name key) as [old|] eqn:Ho; cbn;
        [by eapply Hr | by left].
  - rewrite lookup_insert_ne by done. apply Hr.
Qed.

Lemma meminfo_names_ok_line line r :
  meminfo_names_ok r -> meminfo_names_ok (meminfo_line line r).1.
Proof.
  intros Hr. rewrite meminfo_line_registry.
  destruct (meminfo_entry line) as [[key v]|] eqn:E; [|done].
  intros name g. cbn. unfold upsert.
  destruct (decide (metric_name key = name)) as [<-|Hne].
  - intros _. apply metric_name_chars.
  - rewrite lookup_insert_ne by done. apply Hr.
Qed.

Lemma meminfo_loop_invariant (P : registry F -> Prop) lines r :
  (forall line r, P r -> P (meminfo_line line r).1) ->
  P r -> P (meminfo_loop lines r).1.
Proof.
  intros Hstep. revert r. induction lines as [|l lines IH]; intros r Hr; [done|].
  rewrite meminfo_loop_cons. pose proof (Hstep l r Hr) as Hline.
  destruct (meminfo_line l r) as [r1 [[]|e]]; cbn [fst] in *; [|done].
  by apply IH.
Qed.

Lemma collect_meminfo_invariant (P : registry F -> Prop) read r :
  (forall line r, P r -> P (meminfo_line line r).1) ->
  P r -> P (collect_meminfo_metrics read r).1.
Proof.
  intros Hstep Hr. destruct read as [lines|e]; [|done].
  rewrite collect_meminfo_run.
  pose proof (meminfo_loop_invariant P lines r Hstep Hr) as Hloop.
  by destruct (meminfo_loop lines r) as [r' [[]|e]].
Qed.

End Memory.

Section Lifetime.

Context {F : Type} {FM : FloatModel F}.

Lemma main_loop_meminfo_invariant (P : registry F -> Prop)
    (answers : list (outcome string * outcome (list string))) (r : registry F) :
  (forall r r', meminfo_gauges r' = meminfo_gauges r -> P r -> P r') ->
  (forall line r, P r -> P (meminfo_line line r).1) ->
  P r -> P (main_loop answers r).
Proof.
  intros Hext Hstep. revert r.
  induction answers as [|[run read] rest IH]; intros r Hr; [done|].
  cbn [main_loop]. apply IH. unfold cycle.
  apply collect_meminfo_invariant; [done|].
  eapply Hext; [|exact Hr]. apply collect_iostat_meminfo.
Qed.

(** X9.  From the start of the program on, every memory gauge holds the
    float of a non-negative whole multiple of 1024, or the 0.0 it was
    created with: a sign or a fraction in the file is not part of the
    digits the sampler reads. *)
Theorem X9_memory_values_are_whole_kilobytes :
  forall (answers : list (outcome string * outcome (list string))),
    meminfo_values_ok (main_loop answers (@empty_registry F)).
Proof.
  intros answers. apply main_loop_meminfo_invariant.
  - unfold meminfo_values_ok. by intros r r' ->.
  - apply meminfo_values_ok_line.
  - intros name g. cbn. by rewrite lookup_empty.
Qed.

(** X10.  From the start of the program on, every memory gauge is
    registered under a name made of the characters a-z, 0-9 and the
    underscore only, whatever the keys in the file were; and this holds of
    the name derived from any key. *)
Theorem X10_memory_names_are_plain :
  forall (answers : list (outcome string * outcome (list string)))
         (key : string),
    meminfo_names_ok (main_loop answers (@empty_registry F))
    /\ string_forallb in_lower_name_class (metric_name key) = true.
Proof.
  intros answers key. split; [|apply metric_name_chars].
  apply main_loop_meminfo_invariant.
  - unfold meminfo_names_ok. by intros r r' ->.
  - apply meminfo_names_ok_line.
  - intros name g. cbn. by rewrite lookup_empty.
Qed.

End Lifetime.

Section Outcome.

Context {F : Type} {FM : FloatModel F}.

Implicit Types (r : registry F) (line : string) (lines : list string).

(** ** Before the device header *)

Lemma device_loop_before_header pre hdr post r :
  Forall (fun l => Py.contains "Device" l = false) pre ->
  Py.contains "Device" hdr = true ->
  device_loop (pre ++ hdr :: post) false r = device_loop post true r.
Proof.
  intros Hpre Hhdr. rewrite device_loop_app, device_loop_no_header by done.
  cbn [orb device_loop]. by rewrite Hhdr.
Qed.

(** X12.  A line before the first Device header is never taken as a device
    record, whatever its fields: a name that only such lines start with
    (the first field of the CPU data line, say) gets no device values. *)
Theorem X12_lines_before_header_are_no_records :
  forall (out : string) (pre post : list string) (hdr dev : string)
         (r : registry F),
    Py.splitlines out = pre ++ hdr :: post ->
    Forall (fun l => Py.contains "Device" l = false) pre ->
    Py.contains "Device" hdr = true ->
    Forall (fun l => head (Py.split l) <> Some dev) post ->
    device_metrics dev (collect_iostat_metrics (Return out) r).1
    = device_metrics dev r.
Proof.
  intros out pre post hdr dev r Hlines Hpre Hhdr Hpost.
  rewrite collect_iostat_run.
  pose proof (cpu_loop_preserves (device_metrics dev) (Py.splitlines out)
                (fun _ => conj (fun _ => eq_refl) (fun _ _ => eq_refl)) r)
    as Hcpu.
  destruct (cpu_loop _ r) as [r0 [[]|e]]; cbn [fst] in *; [|done].
  rewrite Hlines, device_loop_before_header by done.
  assert (device_metrics dev (device_loop post true r0).1
          = device_metrics dev r0) as Hdev.
  { apply (device_loop_preserves (device_metrics dev) (fun x => x <> dev)).
    - intros. by apply device_metrics_write_ne.
    - eapply Forall_impl; [exact Hpost|]. intros l Hl x Hx ->. by apply Hl. }
  destruct (device_loop post true r0) as [r1 [[]|e]]; cbn [fst] in *; congruence.
Qed.

(** ** When the disk sampler returns True *)

Lemma cpu_data_line_outcome data r :
  (cpu_data_line data r).2 = Return tt <-> cpu_line_ok data = true.
Proof.
  unfold cpu_data_line, cpu_line_ok, converts.
  destruct (Py.split data) as [|f1 [|f2 [|f3 [|f4 [|f5 [|f6 rest]]]]]];
    try done.
  cbn [length Nat.leb Nat.ltb orb take forallb].
  do 5 (rewrite bind_run, set_cpu_mode_run; cbn [lookup list_lookup];
        match goal with
        | |- context [float ?f] => destruct (float f); [|done]
        end; cbn [set_cpu_avg_percent andb]).
  rewrite set_cpu_mode_run. cbn [lookup list_lookup].
  by destruct (float f6).
Qed.

Lemma cpu_loop_outcome lines r :
  (cpu_loop lines r).2 = Return tt
  <-> forall data, cpu_data_of lines = Some data -> cpu_line_ok data = true.
Proof.
  induction lines as [|l rest IH]; [done|]. cbn [cpu_loop cpu_data_of].
  destruct (Py.contains "%user" l); cbn [andb]; [|exact IH].
  destruct rest as [|next rest'].
  - rewrite bool_decide_eq_false_2 by (intros H; by apply H). done.
  - rewrite bool_decide_eq_true_2 by done. rewrite cpu_data_line_outcome.
    cbn [head]. split; [by intros H data [= <-]|auto].
Qed.

Lemma device_record_outcome line r :
  Py.contains "Device" line = false ->
  (device_record line r).2 = Return tt <-> record_ok line = true.
Proof.
  intros Hd. rewrite device_record_run. unfold record_ok, converts. rewrite Hd.
  destruct (Py.split line) as [|dev [|f2 [|f3 [|f4 rest]]]]; try done.
  cbn [length Nat.leb Nat.ltb orb drop take forallb].
  destruct (float f2); [|done]. destruct (float f3); [|done].
  by destruct (float f4).
Qed.

Lemma record_ok_blank line :
  String.eqb (Py.strip line) "" = true -> record_ok line = true.
Proof.
  intros H. unfold record_ok.
  destruct (Py.split line) as [|x xs] eqn:E; [by rewrite orb_true_r|].
  rewrite split_strip in H; [done | by rewrite E].
Qed.

Lemma record_ok_header line :
  Py.contains "Device" line = true -> record_ok line = true.
Proof. intros H. unfold record_ok. by rewrite H. Qed.

Lemma device_loop_outcome lines r :
  (device_loop lines true r).2 = Return tt <-> Forall (fun l => record_ok l = true) lines.
Proof.
  revert r. induction lines as [|l rest IH]; intros r; [done|].
  cbn [device_loop]. rewrite Forall_cons. cbn beta.
  destruct (Py.contains "Device" l) eqn:Hd.
  - rewrite IH, (record_ok_header l Hd). tauto.
  - rewrite bind_run. cbn [andb].
    destruct (String.eqb (Py.strip l) "") eqn:Hs; cbn [negb].
    + unfold ret. cbn iota. rewrite IH, (record_ok_blank l Hs). tauto.
    + pose proof (device_record_outcome l r Hd) as Hrec.
      destruct (device_record l r) as [r1 [[]|e]]; cbn [snd] in Hrec.
      * rewrite IH. tauto.
      * cbn [snd]. split; [done|]. intros [H _]. by apply Hrec in H.
Qed.

Lemma device_loop_outcome_section lines r :
  (device_loop lines false r).2 = Return tt
  <-> Forall (fun l => record_ok l = true) (device_section_of lines).
Proof.
  revert r. induction lines as [|l rest IH]; intros r; [done|].
  cbn [device_loop device_section_of].
  destruct (Py.contains "Device" l); [apply device_loop_outcome|].
  rewrite bind_run. cbn [andb]. apply IH.
Qed.

(** X13.  The disk sampler returns True exactly when no conversion it
    reaches raises: the line after the first %user header has fewer than
    six fields or its first six fields convert, and every line after the
    first Device header contains Device, or has fewer than four fields, or
    has fields 2 to 4 that convert.  Nothing else in the output can make
    it return False. *)
Theorem X13_iostat_returns_true_iff :
  forall (out : string) (r : registry F),
    (collect_iostat_metrics (Return out) r).2 = true
    <-> (forall data, cpu_data_of (Py.splitlines out) = Some data ->
                      cpu_line_ok data = true)
        /\ Forall (fun l => record_ok l = true)
                  (device_section_of (Py.splitlines out)).
Proof.
  intros out r. rewrite collect_iostat_run.
  rewrite <- cpu_loop_outcome with (r := r).
  destruct (cpu_loop _ r) as [r0 [[]|e]]; cbn [snd].
  - rewrite <- device_loop_outcome_section with (r := r0).
    destruct (device_loop _ false r0) as [r1 [[]|e]]; cbn [snd];
      split; try done; by intros [_ ?].
  - split; [done|]. by intros [? _].
Qed.

(** ** Columns after the ones that are read *)

Lemma device_record_fields l1 l2 r :
  take 4 (Py.split l1) = take 4 (Py.split l2) ->
  device_record l1 r = device_record l2 r.
Proof.
  rewrite !device_record_run.
  destruct (Py.split l1) as [|a1 [|b1 [|c1 [|d1 ?]]]];
    destruct (Py.split l2) as [|a2 [|b2 [|c2 [|d2 ?]]]]; cbn; try done.
  by intros [= -> -> -> ->].
Qed.

Lemma cpu_data_line_fields l1 l2 r :
  take 6 (Py.split l1) = take 6 (Py.split l2) ->
  cpu_data_line l1 r = cpu_data_line l2 r.
Proof.
  unfold cpu_data_line.
  destruct (Py.split l1) as [|a1 [|b1 [|c1 [|d1 [|e1 [|g1 ?]]]]]];
    destruct (Py.split l2) as [|a2 [|b2 [|c2 [|d2 [|e2 [|g2 ?]]]]]];
    cbn [take length Nat.leb]; try done.
  by intros [= -> -> -> -> -> ->].
Qed.

Lemma split_nil_strip line :
  String.eqb (Py.strip line) "" = true -> Py.split line = [].
Proof.
  intros H. destruct (Py.split line) as [|x xs] eqn:E; [done|].
  rewrite split_strip in H; [done | by rewrite E].
Qed.

(** X14.  What the disk sampler reads of a line is whether it contains
    %user, whether it contains Device, and its first six fields: two outputs
    that differ in one line give the same registry and the same boolean
    when the two lines agree on these.  Columns after the sixth are not
    read; a column that contains Device is, by the test for the header. *)
Theorem X14_trailing_fields_ignored :
  forall (out1 out2 : string) (pre post : list string) (l1 l2 : string)
         (r : registry F),
    Py.splitlines out1 = pre ++ l1 :: post ->
    Py.splitlines out2 = pre ++ l2 :: post ->
    Py.contains "%user" l1 = Py.contains "%user" l2 ->
    Py.contains "Device" l1 = Py.contains "Device" l2 ->
    take 6 (Py.split l1) = take 6 (Py.split l2) ->
    collect_iostat_metrics (Return out1) r
    = collect_iostat_metrics (Return out2) r.
Proof.
  intros out1 out2 pre post l1 l2 r H1 H2 Hu Hd Hf.
  rewrite !collect_iostat_run, H1, H2.
  rewrite (cpu_loop_replace pre post l1 l2)
    by (done || intros; by apply cpu_data_line_fields).
  destruct (cpu_loop _ r) as [r0 [[]|e]]; [|done].
  rewrite (device_loop_replace pre post l1 l2); [done..|].
  assert (take 4 (Py.split l1) = take 4 (Py.split l2)) as Hf4.
  { apply (f_equal (take 4)) in Hf. by rewrite !take_take in Hf. }
  assert (Py.split l1 = [] <-> Py.split l2 = []) as Hnil.
  { destruct (Py.split l1), (Py.split l2); try done. }
  intros r1.
  destruct (String.eqb (Py.strip l1) "") eqn:E1;
    destruct (String.eqb (Py.strip l2) "") eqn:E2; cbn [negb]; try done.
  - apply split_nil_strip, Hnil in E1.
    rewrite device_record_short; [done | rewrite E1; cbn; lia].
  - apply split_nil_strip, Hnil in E2.
    rewrite device_record_short; [done | rewrite E2; cbn; lia].
  - by apply device_record_fields.
Qed.

End Outcome.

Section Observed.

Context {F : Type} {FM : FloatModel F}.

Implicit Types (r : registry F) (line : string) (lines : list string).

Lemma meminfo_line_returns line r r' key v :
  meminfo_line line r = (r', Return tt) ->
  meminfo_entry line = Some (key, v) ->
  exists x, float_of_int v = Some x.
Proof.
  rewrite meminfo_line_run. intros Hrun He.
  destruct (meminfo_entry_digits _ _ _ He) as [digits Hd].
  rewrite Hd, He in Hrun.
  unfold meminfo_line_outcome in Hrun.
  destruct (float_of_int v); [eauto | done].
Qed.

Lemma meminfo_loop_observed lines name r r' :
  meminfo_loop lines r = (r', Return tt) ->
  (exists line key v,
     line ∈ lines /\ meminfo_entry line = Some (key, v)
     /\ metric_name key = name) ->
  exists g line key v,
    meminfo_gauges r' !! name = Some g
    /\ line ∈ lines /\ meminfo_entry line = Some (key, v)
    /\ metric_name key = name /\ float_of_int v = Some (value g).
Proof.
  revert r'. induction lines as [|last init IH] using rev_ind; intros r' Hrun.
  { intros (line & ? & ? & Hin & _). by apply elem_of_nil in Hin. }
  intros (line & key & v & Hin & Hentry & Hname).
  rewrite meminfo_loop_app in Hrun.
  destruct (meminfo_loop init r) as [r1 [[]|e]]; [|done].
  rewrite meminfo_loop_cons in Hrun.
  destruct (meminfo_line last r1) as [r2 [[]|e]] eqn:Hlast; [|done].
  cbn [meminfo_loop] in Hrun. injection Hrun as <-.
  specialize (IH r1 eq_refl).
  assert (r2 = (meminfo_line last r1).1) as -> by (by rewrite Hlast).
  destruct (meminfo_entry last) as [[k' v']|] eqn:Elast.
  - destruct (decide (metric_name k' = name)) as [Hk|Hk].
    + destruct (meminfo_line_returns last r1 _ k' v' Hlast Elast) as [x Hx].
      pose proof (meminfo_line_sets last k' v' x r1 Elast Hx) as Hset.
      rewrite Hk in Hset.
      eexists _, last, k', v'. split; [exact Hset|].
      split; [apply elem_of_app; right; by apply list_elem_of_singleton|].
      by repeat split.
    + rewrite meminfo_line_other
        by (intros k v0 Hkv; rewrite Elast in Hkv; by injection Hkv as <- <-).
      destruct IH as (g & l0 & k0 & v0 & Hg & Hin0 & He0 & Hn0 & Hv0).
      { apply elem_of_app in Hin as [Hin|Hin%list_elem_of_singleton].
        - by exists line, key, v.
        - subst line. rewrite Elast in Hentry. injection Hentry as <- <-.
          done. }
      exists g, l0, k0, v0. split; [done|].
      split; [apply elem_of_app; by left|]. done.
  - rewrite meminfo_line_other by (intros k v0 Hkv; by rewrite Elast in Hkv).
    destruct IH as (g & l0 & k0 & v0 & Hg & Hin0 & He0 & Hn0 & Hv0).
    { apply elem_of_app in Hin as [Hin|Hin%list_elem_of_singleton].
      - by exists line, key, v.
      - subst line. by rewrite Elast in Hentry. }
    exists g, l0, k0, v0. split; [done|].
      split; [apply elem_of_app; by left|]. done.
Qed.

(** X15.  After a call of the memory sampler that returned True, every
    line of the file that has a colon and a number within the limit on the
    digits has its gauge in the dictionary, and the value of that gauge is
    the float of a value that a line of this very file with the same metric
    name gave: no value of an earlier cycle is left under a name the file
    mentions. *)
Theorem X15_every_key_of_the_file_has_its_gauge :
  forall (lines : list string) (line key : string) (v : Z) (r : registry F),
    (collect_meminfo_metrics (Return lines) r).2 = true ->
    line ∈ lines ->
    meminfo_entry line = Some (key, v) ->
    exists (g : Gauge F) (line' key' : string) (v' : Z),
      meminfo_gauges (collect_meminfo_metrics (Return lines) r).1
        !! metric_name key = Some g
      /\ line' ∈ lines /\ meminfo_entry line' = Some (key', v')
      /\ metric_name key' = metric_name key
      /\ float_of_int v' = Some (value g).
Proof.
  intros lines line key v r Hok Hin Hentry.
  rewrite collect_meminfo_run in Hok |- *.
  destruct (meminfo_loop lines r) as [r' [[]|e]] eqn:Hrun; [|done].
  cbn [fst]. apply (meminfo_loop_observed lines _ r r' Hrun).
  by exists line, key, v.
Qed.

End Observed.

(** * The primitives on sample inputs *)

Example splitlines_ex :
  Py.splitlines ("a" +:+ String "013" (String "010" ("b c" +:+ String "010" "")))
  = ["a"; "b c"].
Proof. reflexivity. Qed.

Example split_ex : Py.split "  sda  5.0 100.0   200.0 " = ["sda"; "5.0"; "100.0"; "200.0"].
Proof. reflexivity. Qed.

Example strip_ex : Py.strip "   16384 kB " = "16384 kB".
Proof. reflexivity. Qed.

Example split1_ex : Py.split1 ":" "MemTotal:  1:2" = ["MemTotal"; "  1:2"].
Proof. reflexivity. Qed.

Example search_ex : Py.search_digits "ab 16384 kB 7" = Some "16384".
Proof. reflexivity. Qed.

Example int_ex : Py.int "16384" = Some 16384.
Proof. reflexivity. Qed.

Example float_ex1 : Binary64.of_string "5.0" = Some 5%float.
Proof. vm_compute. reflexivity. Qed.

Example float_ex3 : Binary64.of_string "-1_0.25e+2" = Some (-1025)%float.
Proof. vm_compute. reflexivity. Qed.

Example float_ex4 : Binary64.of_string "kB_read/s" = None.
Proof. vm_compute. reflexivity. Qed.

Example float_ex5 : Binary64.of_string "1e400" = Some PrimFloat.infinity.
Proof. vm_compute. reflexivity. Qed.

Example int_limit_ex :
  Py.int_limit (Some 3%nat) "1234" = None
  /\ Py.int_limit (Some 4%nat) "1234" = Some 1234
  /\ Py.int_limit (Some 0%nat) "1234" = Some 1234
  /\ Py.int_limit None "1234" = Some 1234.
Proof. by repeat split. Qed.

Example float_of_int_ex1 : Binary64.of_int_checked 16777216 = Some 16777216%float.
Proof. vm_compute. reflexivity. Qed.

(** 2^53 + 1 has no double of its own. *)
Example float_of_int_ex2 :
  Binary64.of_int_checked 9007199254740993 = Some 9007199254740992%float.
Proof. vm_compute. reflexivity. Qed.

Example float_of_int_ex3 : Binary64.of_int_checked (10 ^ 306 * 1024) = None.
Proof. vm_compute. reflexivity. Qed.

Example mul_int_ex : mul_int (FloatModel := Binary64.model) 100%float 1024 = 102400%float.
Proof. vm_compute. reflexivity. Qed.

(** * The samplers on sample inputs, with binary64 floats *)

#[local] Abbreviation empty := (@empty_registry PrimFloat.float).
#[local] Abbreviation iostat := (collect_iostat_metrics (FM := Binary64.model)).
#[local] Abbreviation meminfo := (collect_meminfo_metrics (FM := Binary64.model)).
#[local] Abbreviation entry := (meminfo_entry (FM := Binary64.model)).
#[local] Abbreviation to_float64 := (float (FloatModel := Binary64.model)).

Ltac evaluate_list :=
  lazymatch goal with
  | |- Forall ?P ?l =>
      let l' := eval vm_compute in l in
      change (Forall P l');
      repeat first [apply List.Forall_nil | apply List.Forall_cons]
  | _ => idtac
  end.

Ltac by_evaluation := evaluate_list; vm_compute; reflexivity.

(** A line whose entry has another metric name. *)
Ltac other_metric :=
  let H := fresh in
  intros ? ? H; vm_compute in H; injection H as <- _;
  vm_compute; discriminate.

(** On a typical report the six modes are the six fields under the header. *)
Lemma C1_witness :
  let r' := (iostat (Return Samples.iostat_typical) empty).1 in
  cpu_avg_percent r' !! "user" = Some 1.5%float
  /\ cpu_avg_percent r' !! "nice" = Some 0%float
  /\ cpu_avg_percent r' !! "system" = Some 0.75%float
  /\ cpu_avg_percent r' !! "iowait" = Some 0.25%float
  /\ cpu_avg_percent r' !! "steal" = Some 0%float
  /\ cpu_avg_percent r' !! "idle" = Some 97.5%float.
Proof.
  apply (C1_cpu_modes_from_first_header (FM := Binary64.model)
           Samples.iostat_typical empty
           ["Linux 5.15.0 (host)   03/11/25   _x86_64_   (4 CPU)"; ""]
           [""; "Device             tps    kB_read/s    kB_wrtn/s";
            "sda 5.0 100.0 200.0"]
           "avg-cpu:  %user   %nice %system %iowait  %steal   %idle"
           "           1.50    0.00    0.75    0.25    0.00   97.50"
           "1.50" "0.00" "0.75" "0.25" "0.00" "97.50" []
           1.5%float 0%float 0.75%float 0.25%float 0%float 97.5%float).
  all: by_evaluation.
Defined.

(** The claim as stated fails on an output with two lines that contain
    %user: line 2 contains %user and line 3 after it has six numeric fields,
    yet the loop stopped at line 0, whose next line is empty, and no mode
    of the CPU gauge was set. *)
Lemma C1_counterexample :
  let lines := Py.splitlines Samples.iostat_two_cpu_headers in
  let r' := (iostat (Return Samples.iostat_two_cpu_headers) empty).1 in
  (exists hdr data : string,
     lines !! 2%nat = Some hdr /\ Py.contains "%user" hdr = true
     /\ lines !! 3%nat = Some data
     /\ to_float64 <$> Py.split data
        = [Some 1.5%float; Some 0%float; Some 0.75%float;
           Some 0.25%float; Some 0%float; Some 97.5%float])
  /\ cpu_avg_percent r' = ∅.
Proof.
  split; [|by vm_compute].
  exists "avg-cpu:  %user   %nice %system %iowait  %steal   %idle",
         "   1.5 0.0 0.75 0.25 0.0 97.5".
  repeat split; vm_compute; reflexivity.
Qed.

(** On a typical report the record of sda gives its five values. *)
Lemma C2_witness :
  device_metrics "sda" (iostat (Return Samples.iostat_typical) empty).1
  = [Some 5%float; Some 100%float; Some 200%float;
     Some 102400%float; Some 204800%float].
Proof.
  set (pre := ["Linux 5.15.0 (host)   03/11/25   _x86_64_   (4 CPU)"; "";
               "avg-cpu:  %user   %nice %system %iowait  %steal   %idle";
               "           1.50    0.00    0.75    0.25    0.00   97.50"; "";
               "Device             tps    kB_read/s    kB_wrtn/s"]).
  set (r0 := (cpu_loop (FM := Binary64.model)
                (Py.splitlines Samples.iostat_typical) empty).1).
  assert (exists r2 : registry PrimFloat.float,
            device_loop (FM := Binary64.model)
              (pre ++ ["sda 5.0 100.0 200.0"]) false r0 = (r2, Return tt)
            /\ device_metrics "sda" r2
               = [Some 5%float; Some 100%float; Some 200%float;
                  Some 102400%float; Some 204800%float]
            /\ (iostat (Return Samples.iostat_typical) empty).1
               = (device_loop (FM := Binary64.model) [] true r2).1
            /\ (Forall (fun l => head (Py.split l) <> Some "sda") [] ->
                device_metrics "sda"
                  (iostat (Return Samples.iostat_typical) empty).1
                = [Some 5%float; Some 100%float; Some 200%float;
                   Some 102400%float; Some 204800%float])) as H.
  { apply (C2_device_record_sets_five_metrics (FM := Binary64.model)
             Samples.iostat_typical empty r0 r0 pre []
             "sda 5.0 100.0 200.0" "sda" "5.0" "100.0" "200.0" []
             5%float 100%float 200%float).
    - vm_compute; reflexivity.
    - do 5 apply Exists_cons_tl. apply Exists_cons_hd. vm_compute; reflexivity.
    - vm_compute; reflexivity.
    - vm_compute; reflexivity.
    - vm_compute; reflexivity.
    - vm_compute; reflexivity.
    - vm_compute; reflexivity.
    - vm_compute; reflexivity.
    - vm_compute; reflexivity. }
  destruct H as (r2 & _ & _ & _ & Hend). exact (Hend (List.Forall_nil _)).
Defined.

(** The claim as stated fails when an earlier line raises: line 2,
    "sda 5.0 100.0 200.0", comes after the header, has four fields, all of
    fields 2 to 4 numeric, and no value is set for sda, because field 2 of
    line 1 is no number and the call ended there with False. *)
Lemma C2_counterexample :
  let lines := Py.splitlines Samples.iostat_bad_before_good in
  let result := iostat (Return Samples.iostat_bad_before_good) empty in
  (exists hdr, lines !! 0%nat = Some hdr /\ Py.contains "Device" hdr = true)
  /\ lines !! 2%nat = Some "sda 5.0 100.0 200.0"
  /\ Py.contains "Device" "sda 5.0 100.0 200.0" = false
  /\ Py.split "sda 5.0 100.0 200.0" = ["sda"; "5.0"; "100.0"; "200.0"]
  /\ to_float64 <$> ["5.0"; "100.0"; "200.0"]
     = [Some 5%float; Some 100%float; Some 200%float]
  /\ device_metrics "sda" result.1 = [None; None; None; None; None]
  /\ result.2 = false.
Proof.
  split; [exists "Device tps kB_read/s kB_wrtn/s"|];
    repeat split; vm_compute; reflexivity.
Qed.





(** A report with neither header leaves an empty registry empty. *)
Lemma C8_witness :
  let r' := (iostat (Return Samples.iostat_no_headers) empty).1 in
  cpu_avg_percent r' = ∅ /\ io_tps r' = ∅.
Proof.
  destruct (C8_missing_header_leaves_gauges (FM := Binary64.model)
              Samples.iostat_no_headers empty) as [Hcpu Hio].
  split.
  - apply Hcpu. by_evaluation.
  - apply Hio. by_evaluation.
Defined.

(** MemTotal and memtotal share a name; the later line, 2 kB, wins. *)
Lemma C9_witness :
  metric_name "MemTotal" = "meminfo_memtotal_bytes"
  /\ metric_name "memtotal" = "meminfo_memtotal_bytes"
  /\ value <$> meminfo_gauges
       (meminfo (Return Samples.meminfo_duplicate) empty).1
       !! metric_name "memtotal"
     = Some 2048%float.
Proof.
  apply (C9_duplicate_key_last_line_wins (FM := Binary64.model)
           [] ["MemFree:         1024 kB" +:+ Samples.nl]
           ["HugePages_Total:       0" +:+ Samples.nl]
           ("MemTotal:       16384 kB" +:+ Samples.nl)
           ("memtotal:           2 kB" +:+ Samples.nl)
           "MemTotal" "memtotal" 16777216 2048 2048%float empty
           (meminfo_loop (FM := Binary64.model)
              ["MemTotal:       16384 kB" +:+ Samples.nl;
               "MemFree:         1024 kB" +:+ Samples.nl] empty).1);
    try (vm_compute; reflexivity).
  repeat first [apply List.Forall_nil | apply List.Forall_cons];
    other_metric.
Defined.

(** The claim as stated fails when the value of the last line is too large
    for a float: the two lines have the same sanitized key, the call ends
    with False on the second, and the metric holds the value of the first,
    5 kB, not the 10^306 kB of the last. *)
Lemma C9_counterexample :
  let result := meminfo (Return Samples.meminfo_duplicate_huge) empty in
  (exists l1 l2,
     Samples.meminfo_duplicate_huge = [l1; l2]
     /\ entry l1 = Some ("MemTotal", 5 * 1024)
     /\ entry l2 = Some ("memtotal", 10 ^ 306 * 1024))
  /\ spec_sanitized_key "MemTotal" = spec_sanitized_key "memtotal"
  /\ value <$> meminfo_gauges result.1 !! "meminfo_memtotal_bytes"
     = Some 5120%float
  /\ result.2 = false.
Proof.
  split; [|repeat split; vm_compute; reflexivity].
  eexists _, _. split; [reflexivity|]. split; vm_compute; reflexivity.
Qed.

(** The bad record of sdb ends the cycle: sda is written, sdc is not. *)
Lemma C10_witness :
  let result := iostat (Return Samples.iostat_good_bad_good) empty in
  result.2 = false
  /\ device_metrics "sda" result.1
     = [Some 1%float; Some 2%float; Some 3%float;
        Some 2048%float; Some 3072%float]
  /\ device_metrics "sdc" result.1 = [None; None; None; None; None].
Proof.
  destruct (C10_bad_device_field_returns_false (FM := Binary64.model)
              Samples.iostat_good_bad_good empty
              ["Device tps kB_read/s kB_wrtn/s"; "sda 1 2 3"] ["sdc 4 5 6"]
              "sdb x y z" "sdb" "x" "y" "z" []
              ltac:(vm_compute; reflexivity)
              ltac:(apply Exists_cons_hd; vm_compute; reflexivity)
              ltac:(vm_compute; reflexivity) ltac:(vm_compute; reflexivity)
              ltac:(left; vm_compute; reflexivity))
    as [Hfalse Hstate].
  split; [exact Hfalse|].
  rewrite (Hstate empty
             (write_device (FM := Binary64.model)
                "sda" 1%float 2%float 3%float empty)
             ltac:(vm_compute; reflexivity) ltac:(vm_compute; reflexivity)).
  split; vm_compute; reflexivity.
Defined.

(** The claim as stated fails when the line with the unparseable fields
    contains Device itself: line 2 comes after the header of line 0, is not
    empty and has four fields of which field 2, "tps", is no number, yet it
    is skipped as a header and the call returns True. *)
Lemma C10_counterexample :
  let lines := Py.splitlines Samples.iostat_repeated_device_header in
  let result := iostat (Return Samples.iostat_repeated_device_header) empty in
  (exists hdr, lines !! 0%nat = Some hdr /\ Py.contains "Device" hdr = true)
  /\ (exists line f1 f2 f3 f4,
        lines !! 2%nat = Some line /\ Py.strip line <> ""
        /\ Py.split line = [f1; f2; f3; f4]
        /\ to_float64 f2 = None)
  /\ result.2 = true.
Proof.
  split; [|split].
  - exists "Device tps kB_read/s kB_wrtn/s". by vm_compute.
  - exists "Device tps kB_read/s kB_wrtn/s",
           "Device", "tps", "kB_read/s", "kB_wrtn/s".
    repeat split; try (vm_compute; reflexivity). by vm_compute.
  - vm_compute; reflexivity.
Qed.

(** ** Further properties on sample inputs *)

Ltac by_difference := evaluate_list; vm_compute; discriminate.

(** A registry that already holds values for sdb. *)
#[local] Abbreviation with_sdb :=
  (write_device (FM := Binary64.model) "sdb" 1%float 2%float 3%float empty).

(** sdb is not in the typical report and keeps its values. *)
Lemma X5_witness :
  device_metrics "sdb" (iostat (Return Samples.iostat_typical) with_sdb).1
  = device_metrics "sdb" with_sdb.
Proof.
  apply (X5_unreported_device_keeps_values (FM := Binary64.model)).
  by_difference.
Defined.

(** A gauge for SwapTotal survives a file that does not mention it. *)
Lemma X6_witness :
  let r :=
    with_meminfo_gauges
      {[ "meminfo_swaptotal_bytes" :=
           {| documentation := "Memory information: SwapTotal";
              value := 4096%float |} ]} empty in
  meminfo_gauges (meminfo (Return Samples.meminfo_duplicate) r).1
    !! "meminfo_swaptotal_bytes"
  = meminfo_gauges r !! "meminfo_swaptotal_bytes".
Proof.
  apply (X6_unreported_key_keeps_gauge (FM := Binary64.model)).
  repeat first [apply List.Forall_nil | apply List.Forall_cons]; other_metric.
Defined.

(** The third CPU field is no number: user and nice are set, system is
    created at 0.0, the call fails, and the record of sda is never read. *)
Lemma X7_witness :
  let out :=
    Samples.text ["avg-cpu:  %user   %nice %system %iowait  %steal   %idle";
                  "   1.5 0.0 n/a 0.25 0.0 97.5";
                  "Device tps kB_read/s kB_wrtn/s";
                  "sda 5.0 100.0 200.0"] in
  let result := iostat (Return out) empty in
  result.2 = false
  /\ cpu_avg_percent result.1
     = child (FM := Binary64.model) "system"
         (set_all [("user", 1.5%float); ("nice", 0%float)] ∅)
  /\ cpu_avg_percent result.1 !! "system" = Some 0%float
  /\ io_tps result.1 = ∅
  /\ io_read_rate result.1 = ∅
  /\ io_write_rate result.1 = ∅
  /\ io_read_bytes result.1 = ∅
  /\ io_write_bytes result.1 = ∅.
Proof.
  apply (X7_cpu_field_failure (FM := Binary64.model) _ empty []
           ["Device tps kB_read/s kB_wrtn/s"; "sda 5.0 100.0 200.0"]
           "avg-cpu:  %user   %nice %system %iowait  %steal   %idle"
           "   1.5 0.0 n/a 0.25 0.0 97.5" "n/a" "system"
           ["1.5"; "0.0"; "n/a"; "0.25"; "0.0"; "97.5"] 2
           [1.5%float; 0%float]).
  - vm_compute; reflexivity.
  - apply List.Forall_nil.
  - vm_compute; reflexivity.
  - vm_compute; reflexivity.
  - vm_compute; lia.
  - reflexivity.
  - repeat constructor.
  - reflexivity.
  - vm_compute; reflexivity.
Defined.

(** The CPU data line has six numeric fields and comes before the device
    header: no device named 1.50 appears. *)
Lemma X12_witness :
  device_metrics "1.50" (iostat (Return Samples.iostat_typical) empty).1
  = device_metrics "1.50" empty.
Proof.
  apply (X12_lines_before_header_are_no_records (FM := Binary64.model)
           Samples.iostat_typical
           ["Linux 5.15.0 (host)   03/11/25   _x86_64_   (4 CPU)"; "";
            "avg-cpu:  %user   %nice %system %iowait  %steal   %idle";
            "           1.50    0.00    0.75    0.25    0.00   97.50"; ""]
           ["sda 5.0 100.0 200.0"]
           "Device             tps    kB_read/s    kB_wrtn/s").
  - vm_compute; reflexivity.
  - by_evaluation.
  - vm_compute; reflexivity.
  - by_difference.
Defined.

(** Columns after the sixth change nothing. *)
Lemma X14_witness :
  iostat (Return (Samples.text ["Device tps"; "sda 5.0 100.0 200.0 0.1 0.2"]))
    empty
  = iostat
      (Return (Samples.text
                 ["Device tps"; "sda 5.0 100.0 200.0 0.1 0.2 0.0 12345 67890"]))
      empty.
Proof.
  apply (X14_trailing_fields_ignored (FM := Binary64.model) _ _
           ["Device tps"] [] "sda 5.0 100.0 200.0 0.1 0.2"
           "sda 5.0 100.0 200.0 0.1 0.2 0.0 12345 67890" empty);
    vm_compute; reflexivity.
Defined.

(** The first MemTotal line has its gauge after the call, holding what a
    line of the file with that name gave. *)
Lemma X15_witness :
  exists (g : Gauge PrimFloat.float) (line' key' : string) (v' : Z),
    meminfo_gauges (meminfo (Return Samples.meminfo_duplicate) empty).1
      !! metric_name "MemTotal" = Some g
    /\ line' ∈ Samples.meminfo_duplicate
    /\ entry line' = Some (key', v')
    /\ metric_name key' = metric_name "MemTotal"
    /\ Binary64.of_int_checked v' = Some (value g).
Proof.
  apply (X15_every_key_of_the_file_has_its_gauge (FM := Binary64.model)
           Samples.meminfo_duplicate
           ("MemTotal:       16384 kB" +:+ Samples.nl) "MemTotal" 16777216).
  - vm_compute; reflexivity.
  - apply list_elem_of_here.
  - vm_compute; reflexivity.
Defined.
